(** * code-sandbox-mcp: connection resolver and environment provisioner

    A shallow embedding of [tools/docker_client.go] and [tools/initialize.go].
    The two Go files talk to the outside world (the Docker engine, the host
    file system, the user database, standard output) through library calls.
    Every such call is an operation of the type [Op]; a Go function becomes a
    finite tree of operations ([Prog]), and [run] interprets a tree against
    an arbitrary stateful environment while recording the trace of calls and
    answers. *)

From Stdlib Require Import String Ascii ZArith.
From stdpp Require Import base option list strings gmap.

Local Open Scope string_scope.
Local Open Scope Z_scope.
Local Open Scope list_scope.
Local Open Scope stdpp_scope.

(** ** Go values *)

(** A Go [error] is used by this code only through its [Error()] text
    ([%v], [%w] and [err.Error()]), so an error value is its message. *)
Definition error := string.

(** A call returning [(T, error)] where exactly one side is meaningful. *)
Inductive result (A : Type) : Type :=
| Ok (a : A)
| Err (e : error).
Arguments Ok {A} a.
Arguments Err {A} e.

(** [*client.Client] and [io.ReadCloser]: opaque handles. *)
Definition Client := nat.
Definition Reader := nat.

(** [time.Duration] counts nanoseconds in an int64. *)
Definition Duration := Z.
Definition Minute : Duration := 60 * 1000000000.

(** [context.Context] values as this code builds them. *)
Inductive Context : Type :=
| Background
| CallerCtx (id : nat)
| WithTimeout (parent : Context) (d : Duration).

(** The two sentinel values of [ctx.Err()]. *)
Inductive CtxError : Type :=
| Canceled
| DeadlineExceeded.

(** [interface{}] values of a decoded JSON argument map. *)
#[local] Set Warnings "-register-all".
Inductive any : Type :=
| ANil
| ABool (b : bool)
| AFloat64 (bits : Z)
| AString (s : string)
| ASlice (l : list any)
| AMap (m : list (string * any)).

(** [user.User], [container.Config], [container.HostConfig],
    [container.CreateResponse]: the fields this code reads or writes. *)
Record User : Type := mkUser { Username : string; HomeDir : string }.

Record Config : Type := mkConfig {
  Image : string;
  WorkingDir : string;
  Tty : bool;
  OpenStdin : bool;
  StdinOnce : bool
}.

Record HostConfig : Type := mkHostConfig { }.

Record CreateResponse : Type := mkCreateResponse {
  ID : string;
  Warnings : list string
}.

(** [mcp.CallToolRequest] and [mcp.CallToolResult]. *)
Record CallToolParams : Type := mkParams {
  Name : string;
  Arguments : gmap string any
}.

Record CallToolRequest : Type := mkRequest { Params : CallToolParams }.

Record TextContent : Type := mkTextContent { Type_ : string; Text : string }.

Record CallToolResult : Type := mkCallToolResult {
  Content : list TextContent;
  IsError : bool
}.

Definition NewToolResultText (text : string) : CallToolResult :=
  {| Content := [ {| Type_ := "text"; Text := text |} ]; IsError := false |}.

(** ** Library functions on strings and paths *)

Definition nl : string := String (ascii_of_nat 10) EmptyString.

(** [strings.Contains(s, substr)]. *)
Fixpoint strings_Contains (s substr : string) : bool :=
  String.prefix substr s ||
  match s with
  | EmptyString => false
  | String _ s' => strings_Contains s' substr
  end.

(** [strings.Join(elems, sep)]. *)
Fixpoint strings_Join (elems : list string) (sep : string) : string :=
  match elems with
  | [] => ""
  | [e] => e
  | e :: rest => e +:+ sep +:+ strings_Join rest sep
  end.

(** Splitting a path at its separators. *)
Fixpoint split_slash (cur : string) (s : string) : list string :=
  match s with
  | EmptyString => [cur]
  | String c s' =>
      if Ascii.eqb c "/"%char then cur :: split_slash "" s'
      else split_slash (cur +:+ String c EmptyString) s'
  end.

(** One element of [filepath.Clean]'s scan; [st] is the output so far, most
    recent element first. *)
Definition clean_step (rooted : bool) (st : list string) (e : string) : list string :=
  if String.eqb e "" then st
  else if String.eqb e "." then st
  else if String.eqb e ".." then
    match st with
    | [] => if rooted then [] else [".."]
    | top :: st' => if String.eqb top ".." then ".." :: st else st'
    end
  else e :: st.

(** [filepath.Clean] on Unix. *)
Definition filepath_Clean (path : string) : string :=
  match path with
  | EmptyString => "."
  | String c _ =>
      let rooted := Ascii.eqb c "/"%char in
      let out := rev (fold_left (clean_step rooted) (split_slash "" path) []) in
      if rooted then "/" +:+ strings_Join out "/"
      else match out with [] => "." | _ => strings_Join out "/" end
  end.

(** [filepath.Join] on Unix: leading empty elements are dropped, the rest is
    joined with the separator and cleaned. *)
Fixpoint filepath_Join (elem : list string) : string :=
  match elem with
  | [] => ""
  | e :: rest =>
      if String.eqb e "" then filepath_Join rest
      else filepath_Clean (strings_Join elem "/")
  end.

(** [fmt.Sprintf("%v", paths)] for a [[]string]. *)
Definition fmt_slice (paths : list string) : string :=
  "[" +:+ strings_Join paths " " +:+ "]".

(** ** Operations on the outside world *)

Inductive Op : Type :=
| NewClientFromEnv
| NewClientWithHost (host : string)
| Ping (cli : Client) (ctx : Context)
| ClientClose (cli : Client)
| UserCurrent
| Stat (path : string)
| Printf (s : string)
| ImageInspect (cli : Client) (ctx : Context) (image : string)
| ImagePull (cli : Client) (ctx : Context) (image : string)
| CtxErr (ctx : Context)
| CtxCancel (ctx : Context)
| ReadAll (r : Reader)
| ReaderClose (r : Reader)
| ContainerCreate (cli : Client) (ctx : Context) (config : Config)
                  (hostConfig : HostConfig) (name : string)
| ContainerStart (cli : Client) (ctx : Context) (id : string).

(** What each operation answers. *)
Definition Resp (o : Op) : Type :=
  match o with
  | NewClientFromEnv => result Client
  | NewClientWithHost _ => result Client
  | Ping _ _ => option error
  | ClientClose _ => option error
  | UserCurrent => result User
  | Stat _ => option error
  | Printf _ => unit
  | ImageInspect _ _ _ => option error
  | ImagePull _ _ _ => result Reader
  | CtxErr _ => option CtxError
  | CtxCancel _ => unit
  | ReadAll _ => string * option error
  | ReaderClose _ => option error
  | ContainerCreate _ _ _ _ _ => result CreateResponse
  | ContainerStart _ _ _ => option error
  end.

(** A Go function body: a finite tree of calls. *)
Inductive Prog (A : Type) : Type :=
| Ret (a : A)
| Vis (o : Op) (k : Resp o -> Prog A).
Arguments Ret {A} a.
Arguments Vis {A} o k.

Fixpoint bind {A B : Type} (p : Prog A) (f : A -> Prog B) : Prog B :=
  match p with
  | Ret a => f a
  | Vis o k => Vis o (fun r => bind (k r) f)
  end.

Definition call (o : Op) : Prog (Resp o) := Vis o Ret.

Declare Scope prog_scope.
Delimit Scope prog_scope with prog.
Notation "x <- p ;; q" := (bind p (fun x => q))
  (at level 100, p at next level, right associativity) : prog_scope.
Notation "p ;;; q" := (bind p (fun _ => q))
  (at level 100, right associativity) : prog_scope.
Local Open Scope prog_scope.

(** One call together with its answer. *)
Definition Event : Type := sigT Resp.
Definition Ev (o : Op) (r : Resp o) : Event := existT o r.

(** The environment: a state and the answer it gives to each call. *)
Definition Handler (W : Type) : Type := forall o : Op, W -> Resp o * W.

Fixpoint run {W A : Type} (h : Handler W) (p : Prog A) (w : W)
  : A * W * list Event :=
  match p with
  | Ret a => (a, w, [])
  | Vis o k =>
      let '(r, w1) := h o w in
      let '(a, w2, tr) := run h (k r) w1 in
      (a, w2, Ev o r :: tr)
  end.

Definition value {W A : Type} (x : A * W * list Event) : A := x.1.1.
Definition trace {W A : Type} (x : A * W * list Event) : list Event := x.2.

(** ** tools/docker_client.go *)

Definition socketPaths (u : result User) : list string :=
  ["/var/run/docker.sock"] ++
  match u with
  | Ok currentUser =>
      [ filepath_Join [HomeDir currentUser; ".rd"; "docker.sock"];
        filepath_Join [HomeDir currentUser; ".docker"; "run"; "docker.sock"];
        filepath_Join [HomeDir currentUser; ".colima"; "default"; "docker.sock"] ]
  | Err _ => []
  end.

Definition connError (paths : list string) : error :=
  "could not connect to Docker daemon. Tried standard connection and socket paths: "
  +:+ fmt_slice paths.

(** The [for _, socketPath := range socketPaths] loop and the final
    [return nil, fmt.Errorf(...)]; [all] is the whole slice, [todo] what the
    loop has not visited yet. *)
Fixpoint trySocketPaths (all todo : list string) : Prog (result Client) :=
  match todo with
  | [] => Ret (Err (connError all))
  | socketPath :: rest =>
      statErr <- call (Stat socketPath) ;;
      match statErr with
      | None =>
          c <- call (NewClientWithHost ("unix://" +:+ socketPath)) ;;
          match c with
          | Ok cli =>
              pingErr <- call (Ping cli Background) ;;
              match pingErr with
              | None => Ret (Ok cli)
              | Some _ => call (ClientClose cli) ;;; trySocketPaths all rest
              end
          | Err _ => trySocketPaths all rest
          end
      | Some _ => trySocketPaths all rest
      end
  end.

Definition tryFallbacks : Prog (result Client) :=
  u <- call UserCurrent ;;
  trySocketPaths (socketPaths u) (socketPaths u).

Definition createDockerClient : Prog (result Client) :=
  c <- call NewClientFromEnv ;;
  match c with
  | Ok cli =>
      pingErr <- call (Ping cli Background) ;;
      match pingErr with
      | None => Ret (Ok cli)
      | Some _ => call (ClientClose cli) ;;; tryFallbacks
      end
  | Err _ => tryFallbacks
  end.

(** ** tools/initialize.go *)

(** [request.Params.Arguments[key]]: a missing key reads as the nil interface. *)
Definition map_index (m : gmap string any) (key : string) : any :=
  default ANil (m !! key).

(** The comma-ok type assertion [v.(string)]. *)
Definition assert_string (v : any) : string * bool :=
  match v with
  | AString s => (s, true)
  | _ => ("", false)
  end.

Definition defaultImage : string := "python:3.12-slim-bookworm".

(** Deferred calls, most recently deferred first; they run when the
    function returns. *)
Fixpoint run_deferred (ds : list Op) : Prog unit :=
  match ds with
  | [] => Ret tt
  | o :: rest => call o ;;; run_deferred rest
  end.

Definition return_ {A : Type} (ds : list Op) (a : A) : Prog A :=
  run_deferred ds ;;; Ret a.

Definition containerConfig (image : string) : Config :=
  {| Image := image;
     WorkingDir := "/app";
     Tty := true;
     OpenStdin := true;
     StdinOnce := false |}.

Definition isNotFoundText (s : string) : bool :=
  strings_Contains s "not found" || strings_Contains s "404"
  || strings_Contains s "manifest unknown".

Definition isErrorText (s : string) : bool :=
  strings_Contains s "error" || strings_Contains s "Error".

(** The messages of [createContainer]'s error returns. *)
Definition clientError (err : error) : error :=
  "failed to create Docker client: " +:+ err.
Definition pullTimeoutError (image : string) : error :=
  "timeout while trying to pull Docker image " +:+ image +:+
  " - this usually means the image doesn't exist in the registry or the registry is unreachable".
Definition downloadTimeoutError (image : string) : error :=
  "timeout while downloading Docker image " +:+ image.
Definition notFoundError (image : string) : error :=
  "docker image " +:+ image +:+
  " not found in registry. Please check that the image name and tag are correct".
Definition pullError (image : string) (detail : string) : error :=
  "failed to pull Docker image " +:+ image +:+ ": " +:+ detail.
Definition readError (image : string) (err : error) : error :=
  "failed to read pull response for image " +:+ image +:+ ": " +:+ err.
Definition createError (err : error) : error :=
  "failed to create container: " +:+ err.
Definition startError (err : error) : error :=
  "failed to start container: " +:+ err.

(** Lines 93-125: the code after the inspect/pull conditional. *)
Definition createAndStart (cli : Client) (ctx : Context) (image : string)
    (ds : list Op) : Prog (string * option error) :=
  let config := containerConfig image in
  let hostConfig := mkHostConfig in
  r <- call (ContainerCreate cli ctx config hostConfig "") ;;
  match r with
  | Err err => return_ ds ("", Some (createError err))
  | Ok resp =>
      startErr <- call (ContainerStart cli ctx (ID resp)) ;;
      match startErr with
      | Some err => return_ ds ("", Some (startError err))
      | None => return_ ds (ID resp, None)
      end
  end.

(** Lines 42-91 once the client exists: inspect, and pull when inspect fails. *)
Definition ensureImageThenCreate (cli : Client) (ctx : Context) (image : string)
    : Prog (string * option error) :=
  let d0 := [ClientClose cli] in
  inspectErr <- call (ImageInspect cli ctx image) ;;
  match inspectErr with
  | Some _ =>
      call (Printf ("Docker image " +:+ image +:+
                    " not found locally, pulling from registry..." +:+ nl)) ;;;
      let pullCtx := WithTimeout ctx (5 * Minute) in
      let d1 := CtxCancel pullCtx :: d0 in
      p <- call (ImagePull cli pullCtx image) ;;
      match p with
      | Err pullErr =>
          ce <- call (CtxErr pullCtx) ;;
          match ce with
          | Some DeadlineExceeded => return_ d1 ("", Some (pullTimeoutError image))
          | _ =>
              let errStr := pullErr in
              if isNotFoundText errStr
              then return_ d1 ("", Some (notFoundError image))
              else return_ d1 ("", Some (pullError image pullErr))
          end
      | Ok pullReader =>
          let d2 := ReaderClose pullReader :: d1 in
          rd <- call (ReadAll pullReader) ;;
          let pullOutput := rd.1 in
          match rd.2 with
          | Some readErr =>
              ce <- call (CtxErr pullCtx) ;;
              match ce with
              | Some DeadlineExceeded =>
                  return_ d2 ("", Some (downloadTimeoutError image))
              | _ => return_ d2 ("", Some (readError image readErr))
              end
          | None =>
              let pullStr := pullOutput in
              if isNotFoundText pullStr
              then return_ d2 ("", Some (notFoundError image))
              else if isErrorText pullStr
              then return_ d2 ("", Some (pullError image pullStr))
              else
                call (Printf ("Successfully pulled Docker image " +:+ image +:+ nl)) ;;;
                createAndStart cli ctx image d2
          end
      end
  | None =>
      call (Printf ("Docker image " +:+ image +:+ " found locally" +:+ nl)) ;;;
      createAndStart cli ctx image d0
  end.

Definition createContainer (ctx : Context) (image : string)
    : Prog (string * option error) :=
  c <- createDockerClient ;;
  match c with
  | Err err => Ret ("", Some (clientError err))
  | Ok cli => ensureImageThenCreate cli ctx image
  end.

(** Lines 17-22: the requested image, or the default. *)
Definition requestedImage (request : CallToolRequest) : string :=
  let '(image, ok) := assert_string (map_index (Arguments (Params request)) "image") in
  if negb ok || String.eqb image "" then defaultImage else image.

Definition InitializeEnvironment (ctx : Context) (request : CallToolRequest)
    : Prog (CallToolResult * option error) :=
  let image := requestedImage request in
  r <- createContainer ctx image ;;
  match r.2 with
  | Some err => Ret (NewToolResultText ("Error: " +:+ err), None)
  | None => Ret (NewToolResultText ("container_id: " +:+ r.1), None)
  end.

(** ** Traces *)

(** The traces and results a program can produce, whatever the environment. *)
Fixpoint exec {A : Type} (p : Prog A) (tr : list Event) (a : A) : Prop :=
  match p with
  | Ret a' => tr = [] /\ a = a'
  | Vis o k => exists (r : Resp o) (tr' : list Event), tr = Ev o r :: tr' /\ exec (k r) tr' a
  end.

#[global] Instance Context_eq_dec : EqDecision Context.
Proof. solve_decision. Defined.
#[global] Instance Config_eq_dec : EqDecision Config.
Proof. solve_decision. Defined.
#[global] Instance HostConfig_eq_dec : EqDecision HostConfig.
Proof. solve_decision. Defined.
#[global] Instance Op_eq_dec : EqDecision Op.
Proof. solve_decision. Defined.

Definition op_of (e : Event) : Op := projT1 e.

(** A liveness probe that answered without error. *)
Definition ping_succeeded (e : Event) : bool :=
  match e with
  | existT (Ping _ _) None => true
  | _ => false
  end.

(** The transports the resolver can try. *)
Inductive Candidate : Type :=
| FromEnv
| Host (host : string).

Definition unix (socketPath : string) : string := "unix://" +:+ socketPath.

Definition connectEv (c : Candidate) (r : result Client) : Event :=
  match c with
  | FromEnv => Ev NewClientFromEnv r
  | Host host => Ev (NewClientWithHost host) r
  end.

(** The candidate a client-construction call is for. *)
Definition connect_of (e : Event) : option Candidate :=
  match op_of e with
  | NewClientFromEnv => Some FromEnv
  | NewClientWithHost host => Some (Host host)
  | _ => None
  end.

(** The candidates on which a connection was attempted, in order. *)
Definition attempted (tr : list Event) : list Candidate := omap connect_of tr.

(** The answer of [user.Current()], when it was asked. *)
Fixpoint user_answer (tr : list Event) : result User :=
  match tr with
  | [] => Err ""
  | existT UserCurrent u :: _ => u
  | _ :: rest => user_answer rest
  end.

(** The candidate list of one resolution. *)
Definition candidates (u : result User) : list Candidate :=
  FromEnv :: map (fun p => Host (unix p)) (socketPaths u).

(** The paths whose existence was checked, and those found to exist. *)
Definition stat_path (e : Event) : option string :=
  match op_of e with
  | Stat path => Some path
  | _ => None
  end.

Definition stat_ok_path (e : Event) : option string :=
  match e with
  | existT (Stat path) None => Some path
  | _ => None
  end.

Definition host_of (e : Event) : option string :=
  match op_of e with
  | NewClientWithHost host => Some host
  | _ => None
  end.

(** The calls [createDockerClient] makes. *)
Definition resolver_op (o : Op) : bool :=
  match o with
  | NewClientFromEnv | NewClientWithHost _ | Ping _ _ | ClientClose _
  | UserCurrent | Stat _ => true
  | _ => false
  end.

(** The reading of "listed equals attempted" in which a path is attempted
    when a connection to it is constructed. *)
Definition listed_equals_attempted (paths : list string) (tr : list Event) : Prop :=
  forall p : string, p ∈ paths <-> Host (unix p) ∈ attempted tr.

Definition isTimeoutError (image : string) (e : error) : Prop :=
  e = pullTimeoutError image \/ e = downloadTimeoutError image.

Definition pullCtx (ctx : Context) : Context := WithTimeout ctx (5 * Minute).

(** ** Scripted environments *)

(** A stateless environment: one fixed answer per kind of call. *)
Record Script : Type := mkScript {
  s_env : result Client;
  s_host : string -> result Client;
  s_ping : Client -> option error;
  s_user : result User;
  s_stat : string -> option error;
  s_inspect : string -> option error;
  s_pull : string -> result Reader;
  s_ctxerr : option CtxError;
  s_read : string * option error;
  s_create : result CreateResponse;
  s_start : option error
}.

Definition scripted (s : Script) : Handler unit :=
  fun o w =>
    (match o return Resp o with
     | NewClientFromEnv => s_env s
     | NewClientWithHost host => s_host s host
     | Ping cli _ => s_ping s cli
     | ClientClose _ => None
     | UserCurrent => s_user s
     | Stat path => s_stat s path
     | Printf _ => tt
     | ImageInspect _ _ image => s_inspect s image
     | ImagePull _ _ image => s_pull s image
     | CtxErr _ => s_ctxerr s
     | CtxCancel _ => tt
     | ReadAll _ => s_read s
     | ReaderClose _ => None
     | ContainerCreate _ _ _ _ _ => s_create s
     | ContainerStart _ _ _ => s_start s
     end, w).

(** A healthy host: the default transport works, the image is cached. *)
Definition healthy : Script :=
  {| s_env := Ok 1%nat;
     s_host := fun _ => Err "unused";
     s_ping := fun _ => None;
     s_user := Ok (mkUser "dev" "/home/dev");
     s_stat := fun _ => Some "no such file or directory";
     s_inspect := fun _ => None;
     s_pull := fun _ => Err "unused";
     s_ctxerr := None;
     s_read := ("", None);
     s_create := Ok (mkCreateResponse "c0ffee" []);
     s_start := None |}.

(** No engine anywhere: the default transport does not answer and no socket
    file exists. *)
Definition no_engine : Script :=
  {| s_env := Err "DOCKER_HOST is malformed";
     s_host := fun _ => Ok 7%nat;
     s_ping := fun _ => None;
     s_user := Err "user: unknown userid";
     s_stat := fun _ => Some "no such file or directory";
     s_inspect := fun _ => None;
     s_pull := fun _ => Err "unused";
     s_ctxerr := None;
     s_read := ("", None);
     s_create := Ok (mkCreateResponse "c0ffee" []);
     s_start := None |}.

(** Rancher Desktop: only the socket under [~/.rd] exists and answers. *)
Definition rancher : Script :=
  {| s_env := Ok 1%nat;
     s_host := fun host => if String.eqb host "unix:///home/dev/.rd/docker.sock"
                           then Ok 2%nat else Err "unreachable";
     s_ping := fun cli => if Nat.eqb cli 2 then None else Some "connection refused";
     s_user := Ok (mkUser "dev" "/home/dev");
     s_stat := fun path => if String.eqb path "/home/dev/.rd/docker.sock"
                           then None else Some "no such file or directory";
     s_inspect := fun _ => None;
     s_pull := fun _ => Err "unused";
     s_ctxerr := None;
     s_read := ("", None);
     s_create := Ok (mkCreateResponse "c0ffee" []);
     s_start := None |}.

(** The image is not cached and the pull call runs into the deadline with a
    misleading error text. *)
Definition pull_times_out : Script :=
  {| s_env := Ok 1%nat;
     s_host := fun _ => Err "unused";
     s_ping := fun _ => None;
     s_user := Ok (mkUser "dev" "/home/dev");
     s_stat := fun _ => Some "no such file or directory";
     s_inspect := fun _ => Some "No such image";
     s_pull := fun _ => Err "context deadline exceeded: repository not found";
     s_ctxerr := Some DeadlineExceeded;
     s_read := ("", None);
     s_create := Ok (mkCreateResponse "c0ffee" []);
     s_start := None |}.

(** The pull call succeeds but the stream reports an unknown manifest. *)
Definition manifest_unknown : Script :=
  {| s_env := Ok 1%nat;
     s_host := fun _ => Err "unused";
     s_ping := fun _ => None;
     s_user := Ok (mkUser "dev" "/home/dev");
     s_stat := fun _ => Some "no such file or directory";
     s_inspect := fun _ => Some "No such image";
     s_pull := fun _ => Ok 5%nat;
     s_ctxerr := None;
     s_read := ("{errorDetail:{message:manifest unknown}}", None);
     s_create := Ok (mkCreateResponse "c0ffee" []);
     s_start := None |}.

(** The container is created but does not start. *)
Definition start_fails : Script :=
  {| s_env := Ok 1%nat;
     s_host := fun _ => Err "unused";
     s_ping := fun _ => None;
     s_user := Ok (mkUser "dev" "/home/dev");
     s_stat := fun _ => Some "no such file or directory";
     s_inspect := fun _ => None;
     s_pull := fun _ => Err "unused";
     s_ctxerr := None;
     s_read := ("", None);
     s_create := Ok (mkCreateResponse "c0ffee" []);
     s_start := Some "OCI runtime create failed" |}.

Definition request_with (args : gmap string any) : CallToolRequest :=
  {| Params := {| Name := "sandbox_initialize"; Arguments := args |} |}.

(** The request with its [image] argument removed. *)
Definition without_image (request : CallToolRequest) : CallToolRequest :=
  {| Params := {| Name := Name (Params request);
                  Arguments := delete "image" (Arguments (Params request)) |} |}.

(** ** Further observers of a trace *)

(** The clients that were constructed, and the clients that were closed. *)
Definition constructed (e : Event) : option Client :=
  match e with
  | existT NewClientFromEnv (Ok cli) => Some cli
  | existT (NewClientWithHost _) (Ok cli) => Some cli
  | _ => None
  end.

Definition closed (e : Event) : option Client :=
  match op_of e with
  | ClientClose cli => Some cli
  | _ => None
  end.

(** The pull streams that were opened, and those that were closed. *)
Definition opened_reader (e : Event) : option Reader :=
  match e with
  | existT (ImagePull _ _ _) (Ok rd) => Some rd
  | _ => None
  end.

Definition closed_reader (e : Event) : option Reader :=
  match op_of e with
  | ReaderClose rd => Some rd
  | _ => None
  end.

(** The arguments of the engine calls. *)
Definition inspect_call (e : Event) : option (Client * Context * string) :=
  match op_of e with
  | ImageInspect cli ctx image => Some (cli, ctx, image)
  | _ => None
  end.

Definition pull_call (e : Event) : option (Client * Context * string) :=
  match op_of e with
  | ImagePull cli ctx image => Some (cli, ctx, image)
  | _ => None
  end.

Definition create_call (e : Event) : option (Client * Context * Config) :=
  match op_of e with
  | ContainerCreate cli ctx config _ _ => Some (cli, ctx, config)
  | _ => None
  end.

Definition start_call (e : Event) : option (Client * Context * string) :=
  match op_of e with
  | ContainerStart cli ctx id => Some (cli, ctx, id)
  | _ => None
  end.

Definition cancelled (e : Event) : option Context :=
  match op_of e with
  | CtxCancel ctx => Some ctx
  | _ => None
  end.

(** The client an engine call goes through, and the image it names. *)
Definition engine_client (e : Event) : option Client :=
  match op_of e with
  | ImageInspect cli _ _ | ImagePull cli _ _
  | ContainerCreate cli _ _ _ _ | ContainerStart cli _ _ => Some cli
  | _ => None
  end.

Definition image_of (e : Event) : option string :=
  match op_of e with
  | ImageInspect _ _ image | ImagePull _ _ image => Some image
  | ContainerCreate _ _ config _ _ => Some (Image config)
  | _ => None
  end.

(** The clients that were probed for liveness under the background context. *)
Definition pinged (e : Event) : option Client :=
  match op_of e with
  | Ping cli Background => Some cli
  | _ => None
  end.

(** The context a call runs under or asks about. *)
Definition context_of (e : Event) : option Context :=
  match op_of e with
  | Ping _ ctx | ImageInspect _ ctx _ | ImagePull _ ctx _
  | ContainerCreate _ ctx _ _ _ | ContainerStart _ ctx _
  | CtxErr ctx | CtxCancel ctx => Some ctx
  | _ => None
  end.

Definition notFoundMarkers : list string := ["not found"; "404"; "manifest unknown"].

(** The client a resolution hands to its caller. *)
Definition returned (r : result Client) : list Client :=
  match r with
  | Ok cli => [cli]
  | Err _ => []
  end.

(** ** Further scripted environments *)

(** The registry answers the pull call itself with a 404. *)
Definition registry_404 : Script :=
  {| s_env := Ok 1%nat;
     s_host := fun _ => Err "unused";
     s_ping := fun _ => None;
     s_user := Ok (mkUser "dev" "/home/dev");
     s_stat := fun _ => Some "no such file or directory";
     s_inspect := fun _ => Some "No such image";
     s_pull := fun _ => Err "unexpected status code 404 from registry";
     s_ctxerr := None;
     s_read := ("", None);
     s_create := Ok (mkCreateResponse "c0ffee" []);
     s_start := None |}.

(** The stream breaks while the caller cancels; the partial text is
    misleading. *)
Definition drain_breaks : Script :=
  {| s_env := Ok 1%nat;
     s_host := fun _ => Err "unused";
     s_ping := fun _ => None;
     s_user := Ok (mkUser "dev" "/home/dev");
     s_stat := fun _ => Some "no such file or directory";
     s_inspect := fun _ => Some "No such image";
     s_pull := fun _ => Ok 5%nat;
     s_ctxerr := Some Canceled;
     s_read := ("layer not found", Some "manifest unknown: unexpected EOF");
     s_create := Ok (mkCreateResponse "c0ffee" []);
     s_start := None |}.

(** The stream completes but embeds an error that is not a not-found one. *)
Definition error_marker : Script :=
  {| s_env := Ok 1%nat;
     s_host := fun _ => Err "unused";
     s_ping := fun _ => None;
     s_user := Ok (mkUser "dev" "/home/dev");
     s_stat := fun _ => Some "no such file or directory";
     s_inspect := fun _ => Some "No such image";
     s_pull := fun _ => Ok 5%nat;
     s_ctxerr := None;
     s_read := ("errorDetail: unauthorized", None);
     s_create := Ok (mkCreateResponse "c0ffee" []);
     s_start := None |}.

(** The image is pulled cleanly, then created and started. *)
Definition pulled : Script :=
  {| s_env := Ok 1%nat;
     s_host := fun _ => Err "unused";
     s_ping := fun _ => None;
     s_user := Ok (mkUser "dev" "/home/dev");
     s_stat := fun _ => Some "no such file or directory";
     s_inspect := fun _ => Some "No such image";
     s_pull := fun _ => Ok 5%nat;
     s_ctxerr := None;
     s_read := ("Status: Downloaded newer image", None);
     s_create := Ok (mkCreateResponse "c0ffee" []);
     s_start := None |}.

(** The pull call succeeds, then the stream breaks at the deadline with a
    misleading partial text. *)
Definition drain_times_out : Script :=
  {| s_env := Ok 1%nat;
     s_host := fun _ => Err "unused";
     s_ping := fun _ => None;
     s_user := Ok (mkUser "dev" "/home/dev");
     s_stat := fun _ => Some "no such file or directory";
     s_inspect := fun _ => Some "No such image";
     s_pull := fun _ => Ok 5%nat;
     s_ctxerr := Some DeadlineExceeded;
     s_read := ("HTTP 404: manifest not found", Some "context deadline exceeded");
     s_create := Ok (mkCreateResponse "c0ffee" []);
     s_start := None |}.

(** The engine refuses to create the container. *)
Definition create_fails : Script :=
  {| s_env := Ok 1%nat;
     s_host := fun _ => Err "unused";
     s_ping := fun _ => None;
     s_user := Ok (mkUser "dev" "/home/dev");
     s_stat := fun _ => Some "no such file or directory";
     s_inspect := fun _ => None;
     s_pull := fun _ => Err "unused";
     s_ctxerr := None;
     s_read := ("", None);
     s_create := Err "invalid reference format";
     s_start := None |}.

(** ** Running and tracing *)

Lemma run_exec {W A : Type} (h : Handler W) (p : Prog A) (w : W) :
  exec p (trace (run h p w)) (value (run h p w)).
Proof.
  revert w. induction p as [a | o k IH]; intros w; simpl.
  - split; reflexivity.
  - destruct (h o w) as [r w1]. specialize (IH r w1).
    destruct (run h (k r) w1) as [[a w2] tr]. exists r, tr. split; [reflexivity | exact IH].
Qed.

Lemma run_bind {W A B : Type} (h : Handler W) (p : Prog A) (f : A -> Prog B) (w : W) :
  run h (bind p f) w =
  let '(a, w1, t1) := run h p w in
  let '(b, w2, t2) := run h (f a) w1 in
  (b, w2, t1 ++ t2).
Proof.
  revert w. induction p as [a | o k IH]; intros w; simpl.
  - destruct (run h (f a) w) as [[b w2] t2]. reflexivity.
  - destruct (h o w) as [r w1]. rewrite IH.
    destruct (run h (k r) w1) as [[a w2] t1].
    destruct (run h (f a) w2) as [[b w3] t2]. reflexivity.
Qed.

Lemma exec_bind {A B : Type} (p : Prog A) (f : A -> Prog B) tr b :
  exec (bind p f) tr b ->
  exists t1 a t2, tr = t1 ++ t2 /\ exec p t1 a /\ exec (f a) t2 b.
Proof.
  revert tr. induction p as [a | o k IH]; intros tr H; simpl in *.
  - exists [], a, tr. auto.
  - destruct H as (r & tr' & -> & H). apply IH in H as (t1 & a & t2 & -> & H1 & H2).
    exists (Ev o r :: t1), a, t2. split; [reflexivity |]. split; [| exact H2].
    exists r, t1. auto.
Qed.

Lemma Ev_op o r o' r' : Ev o r = Ev o' r' -> o = o'.
Proof. intros H. exact (f_equal op_of H). Qed.

Lemma Ev_inj o (r r' : Resp o) : Ev o r = Ev o r' -> r = r'.
Proof. apply (Eqdep_dec.inj_pair2_eq_dec Op Op_eq_dec Resp). Qed.

Arguments exec : simpl never.
Arguments tryFallbacks : simpl never.

(** Peeling one call off an execution. *)
Ltac exec_inv :=
  repeat match goal with
  | H : exec (Ret _) _ _ |- _ => destruct H as [? ?]; simplify_eq
  | H : exec (Vis _ _) _ _ |- _ =>
      let r := fresh "r" in let tr := fresh "tr" in
      destruct H as (r & tr & -> & H); simpl in H
  | H : exec (return_ _ _) _ _ |- _ => cbn in H
  | H : exec (match ?x with _ => _ end) _ _ |- _ => destruct x eqn:?; simpl in H
  end.

(** Deciding whether an event of the trace is a given one. *)
Ltac ev_cases H :=
  repeat match type of H with
  | _ ∈ _ :: _ => apply elem_of_cons in H as [H | H]
  | _ ∈ [] => apply elem_of_nil in H; contradiction
  | _ ∈ _ ++ _ => apply elem_of_app in H as [H | H]
  end.

(** ** The connection resolver *)

Example socketPaths_with_home :
  socketPaths (Ok (mkUser "dev" "/home/dev/")) =
  ["/var/run/docker.sock"; "/home/dev/.rd/docker.sock";
   "/home/dev/.docker/run/docker.sock"; "/home/dev/.colima/default/docker.sock"].
Proof. reflexivity. Qed.

Example socketPaths_without_user :
  socketPaths (Err "user: Current requires cgo") = ["/var/run/docker.sock"].
Proof. reflexivity. Qed.

Example resolver_on_rancher :
  run (scripted rancher) createDockerClient tt =
  (Ok 2%nat, tt,
   [Ev NewClientFromEnv (Ok 1%nat);
    Ev (Ping 1%nat Background) (Some "connection refused");
    Ev (ClientClose 1%nat) None;
    Ev UserCurrent (Ok (mkUser "dev" "/home/dev"));
    Ev (Stat "/var/run/docker.sock") (Some "no such file or directory");
    Ev (Stat "/home/dev/.rd/docker.sock") None;
    Ev (NewClientWithHost "unix:///home/dev/.rd/docker.sock") (Ok 2%nat);
    Ev (Ping 2%nat Background) None]).
Proof. reflexivity. Qed.

Lemma trySocketPaths_ops all todo tr r :
  exec (trySocketPaths all todo) tr r ->
  Forall (fun e => resolver_op (op_of e) = true /\ op_of e <> UserCurrent) tr.
Proof.
  revert tr. induction todo as [| p rest IH]; intros tr H; simpl in H; exec_inv;
    repeat (first [ apply Forall_nil_2 | apply Forall_cons; split; [split; [reflexivity | discriminate] |] ]);
    auto.
Qed.

Lemma createDockerClient_ops tr r :
  exec createDockerClient tr r -> Forall (fun e => resolver_op (op_of e) = true) tr.
Proof.
  intros H. unfold createDockerClient in H. simpl in H. exec_inv;
    repeat (apply Forall_cons; split; [reflexivity |]);
    try apply Forall_nil_2;
    destruct H as (u & t' & -> & H); apply Forall_cons; (split; [reflexivity |]);
    (eapply Forall_impl; [eapply trySocketPaths_ops; eassumption | intros ? [? _]; assumption]).
Qed.

(** Clients are constructed, in order, for exactly the socket paths whose
    existence check succeeded. *)
Lemma trySocketPaths_hosts all todo tr r :
  exec (trySocketPaths all todo) tr r ->
  omap host_of tr = map unix (omap stat_ok_path tr).
Proof.
  revert tr. induction todo as [| p rest IH]; intros tr H; simpl in H; exec_inv;
    cbn; rewrite ?(IH _ H); reflexivity.
Qed.

(** The loop tries the paths in slice order. *)
Lemma trySocketPaths_order all todo tr r :
  exec (trySocketPaths all todo) tr r ->
  attempted tr `sublist_of` map (fun p => Host (unix p)) todo.
Proof.
  revert tr. induction todo as [| p rest IH]; intros tr H; simpl in H; exec_inv; cbn;
    first [ apply sublist_nil
          | apply sublist_skip; first [ apply (IH _ H) | apply sublist_nil_l ]
          | apply sublist_cons; apply (IH _ H) ].
Qed.

(** A loop that runs to its end has checked every path, in order. *)
Lemma trySocketPaths_exhausted all todo tr e :
  exec (trySocketPaths all todo) tr (Err e) ->
  e = connError all /\ omap stat_path tr = todo.
Proof.
  revert tr. induction todo as [| p rest IH]; intros tr H; simpl in H; exec_inv;
    try discriminate; cbn.
  all: first [ split; reflexivity | destruct (IH _ H) as [-> <-]; split; reflexivity ].
Qed.

(** The loop returns at the first probe that answers, and only there. *)
Lemma trySocketPaths_outcome all todo tr r :
  exec (trySocketPaths all todo) tr r ->
  match r with
  | Ok cli =>
      exists pre c,
        tr = pre ++ [connectEv c (Ok cli); Ev (Ping cli Background) None] /\
        existsb ping_succeeded pre = false
  | Err _ => existsb ping_succeeded tr = false
  end.
Proof.
  revert tr. induction todo as [| p rest IH]; intros tr H; simpl in H; exec_inv;
    try reflexivity;
    try (exists [Ev (Stat p) None], (Host (unix p)); split; reflexivity).
  all: specialize (IH _ H); destruct r as [cli | e0]; [| exact IH].
  all: destruct IH as (pre & c & -> & Hpre).
  all: rewrite ?app_comm_cons; eexists _, c; split; [reflexivity | exact Hpre].
Qed.

Lemma trySocketPaths_user all todo tr r pre u :
  exec (trySocketPaths all todo) tr r ->
  Forall (fun e => op_of e <> UserCurrent) pre ->
  user_answer (pre ++ Ev UserCurrent u :: tr) = u.
Proof.
  intros _. induction 1 as [| [o x] pre Ho _ IH]; simpl; [reflexivity |].
  destruct o; try exact IH. simpl in Ho. congruence.
Qed.

(** The two ways through [createDockerClient]: the default transport
    answers, or the fallback loop runs after [user.Current()]. *)
Lemma createDockerClient_cases tr r :
  exec createDockerClient tr r ->
  (exists cli, r = Ok cli /\
     tr = [Ev NewClientFromEnv (Ok cli); Ev (Ping cli Background) None]) \/
  (exists pre u tr',
     tr = pre ++ Ev UserCurrent u :: tr' /\
     attempted pre = [FromEnv] /\
     omap stat_path pre = [] /\ omap stat_ok_path pre = [] /\ omap host_of pre = [] /\
     existsb ping_succeeded pre = false /\
     Forall (fun e => op_of e <> UserCurrent) pre /\
     exec (trySocketPaths (socketPaths u) (socketPaths u)) tr' r).
Proof.
  assert (forall t, exec tryFallbacks t r ->
            exists u t', t = Ev UserCurrent u :: t' /\
              exec (trySocketPaths (socketPaths u) (socketPaths u)) t' r) as Hfb.
  { intros t (u & t' & -> & Ht). exists u, t'. split; [reflexivity | exact Ht]. }
  intros H. unfold createDockerClient in H. simpl in H. exec_inv.
  all: try (left; eexists; split; reflexivity).
  all: right; apply Hfb in H as (u & t' & -> & H).
  all: first [ eexists [_; _; _], u, t'; split; [reflexivity |]
             | eexists [_], u, t'; split; [reflexivity |] ].
  all: repeat (split; [first [reflexivity | repeat constructor; discriminate] |]); exact H.
Qed.

Lemma omap_app_nil {A B : Type} (f : A -> option B) (pre : list A) (x : A) (l : list A) :
  omap f pre = [] -> f x = None -> omap f (pre ++ x :: l) = omap f l.
Proof. intros Hpre Hx. rewrite omap_app, Hpre. simpl. rewrite Hx. reflexivity. Qed.

Lemma trySocketPaths_stats_prefix all todo tr r :
  exec (trySocketPaths all todo) tr r -> omap stat_path tr `prefix_of` todo.
Proof.
  revert tr. induction todo as [| p rest IH]; intros tr H; simpl in H; exec_inv; cbn;
    first [ apply prefix_nil | apply prefix_cons; first [ apply (IH _ H) | apply prefix_nil ] ].
Qed.

(** Every client the loop constructs is probed. *)
Lemma trySocketPaths_pinged all todo tr r :
  exec (trySocketPaths all todo) tr r -> omap pinged tr = omap constructed tr.
Proof.
  revert tr. induction todo as [| p rest IH]; intros tr H; simpl in H; exec_inv;
    cbn; rewrite ?(IH _ H); reflexivity.
Qed.

(** The resolver starts with the default transport and probes every client
    it constructs. *)
Lemma createDockerClient_probes tr r :
  exec createDockerClient tr r ->
  (exists r0 tl, tr = Ev NewClientFromEnv r0 :: tl) /\
  omap pinged tr = omap constructed tr.
Proof.
  intros H. unfold createDockerClient in H. simpl in H. exec_inv.
  all: split; [eexists _, _; reflexivity |].
  all: try reflexivity.
  all: destruct H as (u & t' & -> & H); cbn; rewrite (trySocketPaths_pinged _ _ _ _ H);
    reflexivity.
Qed.

(** C2: [createDockerClient] starts with the default transport and then
    walks the socket paths in slice order without skipping one: each path is
    checked for existence, a client is constructed for each path found, and
    every constructed client is probed. It returns the client of the first
    candidate whose construction and probe both succeed and makes no further
    call after that probe; it fails only when no probe has succeeded and
    every path of the slice has been visited. *)
Theorem resolver_returns_first_success {W : Type} (h : Handler W) (w : W) :
  let out := run h createDockerClient w in
  let paths := socketPaths (user_answer (trace out)) in
  (exists r tl, trace out = Ev NewClientFromEnv r :: tl) /\
  attempted (trace out) `sublist_of` candidates (user_answer (trace out)) /\
  omap stat_path (trace out) `prefix_of` paths /\
  omap host_of (trace out) = map unix (omap stat_ok_path (trace out)) /\
  omap pinged (trace out) = omap constructed (trace out) /\
  match value out with
  | Ok cli =>
      exists pre c,
        trace out = pre ++ [connectEv c (Ok cli); Ev (Ping cli Background) None] /\
        existsb ping_succeeded pre = false
  | Err _ =>
      existsb ping_succeeded (trace out) = false /\
      omap stat_path (trace out) = paths
  end.
Proof.
  intros out. pose proof (run_exec h createDockerClient w) as H. fold out in H.
  destruct out as [[r w'] tr]. unfold value, trace in *. cbn [fst snd] in *. cbv zeta.
  destruct (createDockerClient_probes _ _ H) as [Hfirst Hprobe].
  split; [exact Hfirst |]. clear Hfirst.
  apply createDockerClient_cases in H
    as [(cli & -> & ->) | (pre & u & tr' & -> & Hatt & Hst & Hok & Hh & Hping & Huser & H)].
  - split; [apply sublist_skip, sublist_nil_l |].
    split; [apply prefix_nil |]. split; [reflexivity |]. split; [exact Hprobe |].
    exists [], FromEnv. split; reflexivity.
  - rewrite (trySocketPaths_user _ _ _ _ _ _ H Huser).
    rewrite (omap_app_nil stat_path pre (Ev UserCurrent u) tr' Hst eq_refl).
    rewrite (omap_app_nil stat_ok_path pre (Ev UserCurrent u) tr' Hok eq_refl).
    rewrite (omap_app_nil host_of pre (Ev UserCurrent u) tr' Hh eq_refl).
    split.
    { unfold attempted in *. rewrite omap_app, Hatt. simpl.
      apply sublist_skip. exact (trySocketPaths_order _ _ _ _ H). }
    split; [exact (trySocketPaths_stats_prefix _ _ _ _ H) |].
    split; [exact (trySocketPaths_hosts _ _ _ _ H) |].
    split; [exact Hprobe |].
    pose proof (trySocketPaths_outcome _ _ _ _ H) as Hout. destruct r as [cli | e].
    + destruct Hout as (pre' & c & -> & Hpre').
      exists (pre ++ Ev UserCurrent u :: pre'), c. split.
      * rewrite <- app_assoc. reflexivity.
      * rewrite existsb_app, Hping. exact Hpre'.
    + split.
      * rewrite existsb_app, Hping. exact Hout.
      * exact (proj2 (trySocketPaths_exhausted _ _ _ _ H)).
Qed.

(** C8: a socket path for which no existence check succeeded is never
    handed to the client constructor. *)
Theorem absent_socket_never_connected {W : Type} (h : Handler W) (w : W) (p : string) :
  let tr := trace (run h createDockerClient w) in
  p ∉ omap stat_ok_path tr ->
  unix p ∉ omap host_of tr.
Proof.
  intros tr. pose proof (run_exec h createDockerClient w) as H. fold tr in H.
  revert H. generalize (value (run h createDockerClient w)). generalize tr. clear tr.
  intros tr r H Hstat Hhost. apply Hstat. clear Hstat.
  assert (omap host_of tr = map unix (omap stat_ok_path tr)) as Heq.
  { apply createDockerClient_cases in H
      as [(cli & -> & ->) | (pre & u & tr' & -> & _ & _ & Hok & Hh & _ & _ & H)].
    - reflexivity.
    - rewrite (omap_app_nil stat_ok_path pre (Ev UserCurrent u) tr' Hok eq_refl).
      rewrite (omap_app_nil host_of pre (Ev UserCurrent u) tr' Hh eq_refl).
      exact (trySocketPaths_hosts _ _ _ _ H). }
  rewrite Heq in Hhost. apply list_elem_of_fmap in Hhost as (q & Hq & Hin).
  unfold unix in Hq. simpl in Hq. simplify_eq. exact Hin.
Qed.

Lemma absent_socket_never_connected_witness :
  let tr := trace (run (scripted rancher) createDockerClient tt) in
  ("/var/run/docker.sock" ∉ omap stat_ok_path tr) /\
  (unix "/var/run/docker.sock" ∉ omap host_of tr).
Proof.
  assert ("/var/run/docker.sock" ∉
          omap stat_ok_path (trace (run (scripted rancher) createDockerClient tt))) as Hs.
  { vm_compute. intros H. apply list_elem_of_In in H. simpl in H. intuition discriminate. }
  split; [exact Hs |].
  exact (absent_socket_never_connected (scripted rancher) tt "/var/run/docker.sock" Hs).
Defined.

(** C9 as stated fails: with no engine and no socket file, the message lists
    [/var/run/docker.sock], on which no connection was attempted. *)
Lemma listed_not_attempted_counterexample :
  let out := run (scripted no_engine) createDockerClient tt in
  value out = Err (connError ["/var/run/docker.sock"]) /\
  ~ listed_equals_attempted ["/var/run/docker.sock"] (trace out).
Proof.
  split; [reflexivity |].
  intros H. destruct (H "/var/run/docker.sock") as [Hin _].
  specialize (Hin (list_elem_of_here _ _)).
  apply list_elem_of_In in Hin. vm_compute in Hin. intuition discriminate.
Qed.

(** C9, amended: when no probe succeeds, the resolver fails with the
    connection error listing the whole socket-path slice: the paths whose
    existence was checked, in order. Connections were attempted only on those
    of them whose check succeeded. *)
Theorem connection_error_lists_socket_paths {W : Type} (h : Handler W) (w : W) :
  let out := run h createDockerClient w in
  let paths := socketPaths (user_answer (trace out)) in
  existsb ping_succeeded (trace out) = false ->
  value out = Err (connError paths) /\
  omap stat_path (trace out) = paths /\
  omap host_of (trace out) = map unix (omap stat_ok_path (trace out)).
Proof.
  intros out. pose proof (run_exec h createDockerClient w) as H. fold out in H.
  destruct out as [[r w'] tr]. unfold value, trace in *. simpl in *. intros Hping.
  apply createDockerClient_cases in H
    as [(cli & -> & ->) | (pre & u & tr' & -> & _ & Hst & Hok & Hh & _ & Huser & H)].
  - discriminate Hping.
  - rewrite (trySocketPaths_user _ _ _ _ _ _ H Huser).
    rewrite (omap_app_nil stat_path pre (Ev UserCurrent u) tr' Hst eq_refl).
    rewrite (omap_app_nil stat_ok_path pre (Ev UserCurrent u) tr' Hok eq_refl).
    rewrite (omap_app_nil host_of pre (Ev UserCurrent u) tr' Hh eq_refl).
    rewrite (trySocketPaths_hosts _ _ _ _ H).
    destruct r as [cli | e].
    + apply trySocketPaths_outcome in H as (pre' & c & -> & _).
      rewrite existsb_app in Hping. apply orb_false_elim in Hping as [_ Hping].
      simpl in Hping. rewrite existsb_app in Hping. simpl in Hping.
      rewrite !orb_true_r in Hping. discriminate Hping.
    + apply trySocketPaths_exhausted in H as [-> ->]. auto.
Qed.

Lemma connection_error_lists_socket_paths_witness :
  let out := run (scripted no_engine) createDockerClient tt in
  existsb ping_succeeded (trace out) = false /\
  value out = Err (connError ["/var/run/docker.sock"]) /\
  omap stat_path (trace out) = ["/var/run/docker.sock"] /\
  omap host_of (trace out) = [].
Proof.
  split; [reflexivity |].
  exact (connection_error_lists_socket_paths (scripted no_engine) tt eq_refl).
Defined.

(** ** The environment provisioner *)

Lemma resolver_trace_op o r t :
  Forall (fun e => resolver_op (op_of e) = true) t -> Ev o r ∈ t -> resolver_op o = true.
Proof. intros Hall Hin. rewrite Forall_forall in Hall. exact (Hall _ Hin). Qed.

(** [createContainer] either stops at the resolver's error or continues with
    its client. *)
Lemma createContainer_cases ctx image tr res :
  exec (createContainer ctx image) tr res ->
  Forall (fun e => resolver_op (op_of e) = true) tr /\
    (exists e, res = ("", Some (clientError e))) \/
  exists t1 cli t2,
    tr = t1 ++ t2 /\
    Forall (fun e => resolver_op (op_of e) = true) t1 /\
    exec (ensureImageThenCreate cli ctx image) t2 res.
Proof.
  intros H. unfold createContainer in H.
  apply exec_bind in H as (t1 & c & t2 & -> & H1 & H2).
  pose proof (createDockerClient_ops _ _ H1) as Hops. destruct c as [cli | e].
  - right. exists t1, cli, t2. auto.
  - left. destruct H2 as [-> ->]. rewrite app_nil_r. split; [exact Hops | eauto].
Qed.

(** Settling whether a given event occurs in a trace that has been
    computed down to its calls. *)
Ltac ev_solve Hops H :=
  ev_cases H;
  try (apply (resolver_trace_op _ _ _ Hops) in H; discriminate H);
  try (let Ho := fresh "Ho" in
       pose proof (Ev_op _ _ _ _ H) as Ho; try discriminate Ho;
       simplify_eq Ho; intros; subst; apply Ev_inj in H; simplify_eq).

Ltac provision_cases H Hops :=
  apply createContainer_cases in H
    as [[Hops [?e ->]] | (?t1 & ?cli & ?t2 & -> & Hops & H)];
  [| unfold ensureImageThenCreate, createAndStart in H; simpl in H; exec_inv ].

Lemma Contains_prefix s sub : String.prefix sub s = true -> strings_Contains s sub = true.
Proof. intros H. destruct s; cbn [strings_Contains]; rewrite H; reflexivity. Qed.

Lemma Contains_app_r a b sub :
  strings_Contains b sub = true -> strings_Contains (a +:+ b) sub = true.
Proof.
  intros H. induction a as [| c a IH]; [exact H |].
  change (String c a +:+ b) with (String c (a +:+ b)).
  cbn [strings_Contains]. rewrite IH. apply orb_true_r.
Qed.

(** What follows a failing pull call: the pull context is asked at once,
    and its answer decides before the text is looked at. *)
Lemma pull_failure_query ctx image tr res cli e :
  exec (createContainer ctx image) tr res ->
  Ev (ImagePull cli (pullCtx ctx) image) (Err e) ∈ tr ->
  exists pre ce post,
    tr = pre ++ [Ev (ImagePull cli (pullCtx ctx) image) (Err e);
                 Ev (CtxErr (pullCtx ctx)) ce] ++ post /\
    res = ("", Some match ce with
                    | Some DeadlineExceeded => pullTimeoutError image
                    | _ => if isNotFoundText e then notFoundError image
                           else pullError image e
                    end).
Proof.
  intros H Hin. provision_cases H Hops.
  1: apply (resolver_trace_op _ _ _ Hops) in Hin; discriminate Hin.
  all: ev_solve Hops Hin.
  all: eexists (_ ++ [_; _]), _, _; split; [rewrite <- app_assoc; reflexivity |].
  all: cbn; rewrite ?Heqb; reflexivity.
Qed.

(** What follows a failing drain: the pull context is asked at once, and the
    text plays no part. *)
Lemma drain_failure_query ctx image tr res rd text e :
  exec (createContainer ctx image) tr res ->
  Ev (ReadAll rd) (text, Some e) ∈ tr ->
  exists pre ce post,
    tr = pre ++ [Ev (ReadAll rd) (text, Some e); Ev (CtxErr (pullCtx ctx)) ce] ++ post /\
    res = ("", Some match ce with
                    | Some DeadlineExceeded => downloadTimeoutError image
                    | _ => readError image e
                    end).
Proof.
  intros H Hin. provision_cases H Hops.
  1: apply (resolver_trace_op _ _ _ Hops) in Hin; discriminate Hin.
  all: ev_solve Hops Hin.
  all: simpl in *; simplify_eq.
  all: eexists (_ ++ [_; _; _]), _, _; split; [rewrite <- app_assoc; reflexivity |].
  all: reflexivity.
Qed.

(** C3: a failing pull call, and a failing drain of the pull stream, is
    followed at once by the query of the pull context (the caller's context
    with the five minute timeout); when that context reports an exceeded
    deadline, [createContainer] returns a timeout error, whatever the text
    of the failure or of the partial response, and never the not-found
    one. *)
Theorem pull_timeout_classified {W : Type} (h : Handler W) (w : W)
    (ctx : Context) (image : string) (failure : Event) :
  let out := run h (createContainer ctx image) w in
  (exists cli e, failure = Ev (ImagePull cli (pullCtx ctx) image) (Err e)) \/
  (exists rd text e, failure = Ev (ReadAll rd) (text, Some e)) ->
  failure ∈ trace out ->
  exists pre ce post,
    trace out = pre ++ [failure; Ev (CtxErr (pullCtx ctx)) ce] ++ post /\
    (ce = Some DeadlineExceeded ->
     exists e, value out = ("", Some e) /\ isTimeoutError image e /\
               e <> notFoundError image).
Proof.
  intros out. pose proof (run_exec h (createContainer ctx image) w) as H. fold out in H.
  destruct out as [[res w'] tr]. unfold value, trace in *. cbn [fst snd] in *.
  intros [(cli & e & ->) | (rd & text & e & ->)] Hin.
  - destruct (pull_failure_query _ _ _ _ _ _ H Hin) as (pre & ce & post & Htr & Hres).
    exists pre, ce, post. split; [exact Htr |]. intros ->. subst res.
    eexists. split; [reflexivity |]. split; [left; reflexivity | discriminate].
  - destruct (drain_failure_query _ _ _ _ _ _ _ H Hin) as (pre & ce & post & Htr & Hres).
    exists pre, ce, post. split; [exact Htr |]. intros ->. subst res.
    eexists. split; [reflexivity |]. split; [right; reflexivity | discriminate].
Qed.

Lemma pull_timeout_classified_witness :
  (let out := run (scripted pull_times_out) (createContainer (CallerCtx 0) "ghcr.io/acme/tool:1") tt in
   let failure := Ev (ImagePull 1%nat (pullCtx (CallerCtx 0)) "ghcr.io/acme/tool:1")
                     (Err "context deadline exceeded: repository not found") in
   isNotFoundText "context deadline exceeded: repository not found" = true /\
   value out = ("", Some (pullTimeoutError "ghcr.io/acme/tool:1")) /\
   exists pre ce post,
     trace out = pre ++ [failure; Ev (CtxErr (pullCtx (CallerCtx 0))) ce] ++ post /\
     (ce = Some DeadlineExceeded ->
      exists e, value out = ("", Some e) /\ isTimeoutError "ghcr.io/acme/tool:1" e /\
                e <> notFoundError "ghcr.io/acme/tool:1")) /\
  (let out := run (scripted drain_times_out) (createContainer (CallerCtx 0) "ghcr.io/acme/tool:1") tt in
   let failure := Ev (ReadAll 5%nat)
                     ("HTTP 404: manifest not found", Some "context deadline exceeded") in
   isNotFoundText "HTTP 404: manifest not found" = true /\
   value out = ("", Some (downloadTimeoutError "ghcr.io/acme/tool:1")) /\
   exists pre ce post,
     trace out = pre ++ [failure; Ev (CtxErr (pullCtx (CallerCtx 0))) ce] ++ post /\
     (ce = Some DeadlineExceeded ->
      exists e, value out = ("", Some e) /\ isTimeoutError "ghcr.io/acme/tool:1" e /\
                e <> notFoundError "ghcr.io/acme/tool:1")).
Proof.
  split.
  - split; [reflexivity |]. split; [reflexivity |].
    apply (pull_timeout_classified (scripted pull_times_out) tt (CallerCtx 0)
             "ghcr.io/acme/tool:1").
    + left. eexists _, _. reflexivity.
    + vm_compute. repeat constructor.
  - split; [reflexivity |]. split; [reflexivity |].
    apply (pull_timeout_classified (scripted drain_times_out) tt (CallerCtx 0)
             "ghcr.io/acme/tool:1").
    + right. eexists _, _, _. reflexivity.
    + vm_compute. repeat constructor.
Defined.

(** C4: when the image inspection succeeds, no pull is ever issued, and the
    next engine call is the creation of a container from that image. *)
Theorem cached_image_skips_pull {W : Type} (h : Handler W) (w : W)
    (ctx : Context) (image : string) (cli : Client) :
  let out := run h (createContainer ctx image) w in
  Ev (ImageInspect cli ctx image) None ∈ trace out ->
  (forall cli' ctx' image' r, Ev (ImagePull cli' ctx' image') r ∉ trace out) /\
  exists pre r post,
    trace out =
      pre ++ [Ev (ImageInspect cli ctx image) None;
              Ev (Printf ("Docker image " +:+ image +:+ " found locally" +:+ nl)) tt;
              Ev (ContainerCreate cli ctx (containerConfig image) mkHostConfig "") r]
          ++ post.
Proof.
  intros out. pose proof (run_exec h (createContainer ctx image) w) as H. fold out in H.
  destruct out as [[res w'] tr]. unfold value, trace in *. simpl in *.
  intros Hin. provision_cases H Hops.
  1: apply (resolver_trace_op _ _ _ Hops) in Hin; discriminate Hin.
  all: ev_solve Hops Hin.
  all: split;
    [ intros cli' ctx' image' r' Hpull; ev_solve Hops Hpull
    | repeat match goal with u : Resp (Printf _) |- _ => destruct u end;
      eexists _, _, _; reflexivity ].
Qed.

Lemma cached_image_skips_pull_witness :
  let out := run (scripted healthy) (createContainer (CallerCtx 0) "alpine:3") tt in
  Ev (ImageInspect 1%nat (CallerCtx 0) "alpine:3") None ∈ trace out /\
  forall cli' ctx' image' r, Ev (ImagePull cli' ctx' image') r ∉ trace out.
Proof.
  assert (Ev (ImageInspect 1%nat (CallerCtx 0) "alpine:3") None
          ∈ trace (run (scripted healthy) (createContainer (CallerCtx 0) "alpine:3") tt)) as Hin.
  { vm_compute. repeat constructor. }
  split; [exact Hin |].
  exact (proj1 (cached_image_skips_pull (scripted healthy) tt (CallerCtx 0) "alpine:3" 1%nat Hin)).
Defined.

(** C6: when the pull call succeeds and the drained stream text contains
    "not found", "404" or "manifest unknown", [createContainer] fails with
    the not-found-in-registry error, not with the generic pull error. *)
Theorem embedded_not_found_classified {W : Type} (h : Handler W) (w : W)
    (ctx : Context) (image : string) (cli : Client) (rd : Reader) (text : string) :
  let out := run h (createContainer ctx image) w in
  Ev (ImagePull cli (pullCtx ctx) image) (Ok rd) ∈ trace out ->
  Ev (ReadAll rd) (text, None) ∈ trace out ->
  strings_Contains text "not found" = true \/ strings_Contains text "404" = true
    \/ strings_Contains text "manifest unknown" = true ->
  value out = ("", Some (notFoundError image)) /\
  strings_Contains (notFoundError image) "not found in registry" = true /\
  forall detail, notFoundError image <> pullError image detail.
Proof.
  intros out. pose proof (run_exec h (createContainer ctx image) w) as H. fold out in H.
  destruct out as [[res w'] tr]. unfold value, trace in *. simpl in *.
  intros Hpull Hread Htext.
  assert (isNotFoundText text = true) as Hnf.
  { unfold isNotFoundText. destruct Htext as [-> | [-> | ->]];
      rewrite ?orb_true_r; reflexivity. }
  split; [| split].
  - provision_cases H Hops.
    1: apply (resolver_trace_op _ _ _ Hops) in Hpull; discriminate Hpull.
    all: ev_solve Hops Hpull.
    all: ev_solve Hops Hread.
    all: simpl in *; try congruence.
  - unfold notFoundError. do 2 apply Contains_app_r. reflexivity.
  - intros detail. discriminate.
Qed.

Lemma embedded_not_found_classified_witness :
  let out := run (scripted manifest_unknown) (createContainer (CallerCtx 0) "acme/none:9") tt in
  value out = ("", Some (notFoundError "acme/none:9")) /\
  strings_Contains (notFoundError "acme/none:9") "not found in registry" = true /\
  forall detail, notFoundError "acme/none:9" <> pullError "acme/none:9" detail.
Proof.
  apply (embedded_not_found_classified (scripted manifest_unknown) tt (CallerCtx 0)
           "acme/none:9" 1%nat 5%nat "{errorDetail:{message:manifest unknown}}").
  - vm_compute. repeat constructor.
  - vm_compute. repeat constructor.
  - right. right. reflexivity.
Defined.

(** C7: when the container was created and its start fails, [createContainer]
    returns the empty identifier together with the wrapped start error. *)
Theorem failed_start_hides_container_id {W : Type} (h : Handler W) (w : W)
    (ctx : Context) (image : string) (cli : Client) (resp : CreateResponse) (e : error) :
  let out := run h (createContainer ctx image) w in
  Ev (ContainerCreate cli ctx (containerConfig image) mkHostConfig "") (Ok resp) ∈ trace out ->
  Ev (ContainerStart cli ctx (ID resp)) (Some e) ∈ trace out ->
  value out = ("", Some (startError e)).
Proof.
  intros out. pose proof (run_exec h (createContainer ctx image) w) as H. fold out in H.
  destruct out as [[res w'] tr]. unfold value, trace in *. simpl in *.
  intros Hcreate Hstart. provision_cases H Hops.
  1: apply (resolver_trace_op _ _ _ Hops) in Hstart; discriminate Hstart.
  all: ev_solve Hops Hcreate.
  all: ev_solve Hops Hstart.
  all: reflexivity.
Qed.

Lemma failed_start_hides_container_id_witness :
  value (run (scripted start_fails) (createContainer (CallerCtx 0) "alpine:3") tt)
  = ("", Some (startError "OCI runtime create failed")).
Proof.
  apply (failed_start_hides_container_id (scripted start_fails) tt (CallerCtx 0) "alpine:3"
           1%nat (mkCreateResponse "c0ffee" []) "OCI runtime create failed").
  - vm_compute. repeat constructor.
  - vm_compute. repeat constructor.
Defined.

(** A result of [createContainer] never carries both an identifier and an
    error. *)
Lemma createContainer_never_both {W : Type} (h : Handler W) (w : W)
    (ctx : Context) (image : string) :
  let out := run h (createContainer ctx image) w in
  forall e, (value out).2 = Some e -> (value out).1 = "".
Proof.
  intros out. pose proof (run_exec h (createContainer ctx image) w) as H. fold out in H.
  destruct out as [[res w'] tr]. unfold value, trace in *. simpl in *.
  intros e He. provision_cases H Hops.
  all: first [reflexivity | discriminate He].
Qed.

(** Every container is created from the fixed spec for the given image. *)
Lemma createContainer_config {W : Type} (h : Handler W) (w : W)
    (ctx : Context) (image : string) :
  let out := run h (createContainer ctx image) w in
  forall cli ctx' config hostConfig name r,
    Ev (ContainerCreate cli ctx' config hostConfig name) r ∈ trace out ->
    config = containerConfig image /\ hostConfig = mkHostConfig /\ name = "" /\ ctx' = ctx.
Proof.
  intros out. pose proof (run_exec h (createContainer ctx image) w) as H. fold out in H.
  destruct out as [[res w'] tr]. unfold value, trace in *. simpl in *.
  intros cli0 ctx' config hostConfig name r0 Hin. provision_cases H Hops.
  1: apply (resolver_trace_op _ _ _ Hops) in Hin; discriminate Hin.
  all: ev_solve Hops Hin.
  all: auto.
Qed.

(** A successful [createContainer] returns the identifier the engine gave
    to a container that it created and started. *)
Lemma createContainer_success {W : Type} (h : Handler W) (w : W)
    (ctx : Context) (image : string) :
  let out := run h (createContainer ctx image) w in
  (value out).2 = None ->
  exists cli resp,
    Ev (ContainerCreate cli ctx (containerConfig image) mkHostConfig "") (Ok resp) ∈ trace out /\
    Ev (ContainerStart cli ctx (ID resp)) None ∈ trace out /\
    (value out).1 = ID resp.
Proof.
  intros out. pose proof (run_exec h (createContainer ctx image) w) as H. fold out in H.
  destruct out as [[res w'] tr]. unfold value, trace in *. simpl in *.
  intros Hok. provision_cases H Hops.
  all: try discriminate Hok.
  all: eexists _, _; split; [| split; [| reflexivity]];
    apply elem_of_app; right; repeat constructor.
Qed.

Lemma run_InitializeEnvironment {W : Type} (h : Handler W) (w : W)
    (ctx : Context) (request : CallToolRequest) :
  let inner := run h (createContainer ctx (requestedImage request)) w in
  run h (InitializeEnvironment ctx request) w =
  (match (value inner).2 with
   | Some err => (NewToolResultText ("Error: " +:+ err), None)
   | None => (NewToolResultText ("container_id: " +:+ (value inner).1), None)
   end, inner.1.2, trace inner).
Proof.
  intros inner. unfold InitializeEnvironment. rewrite run_bind. fold inner.
  destruct inner as [[[id err] w1] t1]. unfold value, trace. simpl.
  destruct err; simpl; rewrite app_nil_r; reflexivity.
Qed.

(** C1: [InitializeEnvironment] always returns a text result and a nil
    error. It makes the calls of [createContainer] on the requested image;
    when that fails the text is "Error: " followed by the error, otherwise it
    is "container_id: " followed by the identifier. *)
Theorem initialize_always_answers {W : Type} (h : Handler W) (w : W)
    (ctx : Context) (request : CallToolRequest) :
  let inner := run h (createContainer ctx (requestedImage request)) w in
  let out := run h (InitializeEnvironment ctx request) w in
  (value out).2 = None /\
  trace out = trace inner /\
  match (value inner).2 with
  | Some err => (value out).1 = NewToolResultText ("Error: " +:+ err)
  | None => (value out).1 = NewToolResultText ("container_id: " +:+ (value inner).1)
  end.
Proof.
  intros inner out. unfold out. rewrite run_InitializeEnvironment. fold inner.
  unfold value at 1 3 4, trace at 1. simpl.
  destruct ((value inner).2); auto.
Qed.

Lemma append_inj_l (a b c : string) : a +:+ b = a +:+ c -> b = c.
Proof.
  induction a as [| x a IH]; intros H; [exact H |].
  change (String x (a +:+ b) = String x (a +:+ c)) in H.
  injection H as H. exact (IH H).
Qed.

Lemma requestedImage_default (request : CallToolRequest) :
  (forall s, Arguments (Params request) !! "image" = Some (AString s) -> s = "") ->
  requestedImage request = defaultImage.
Proof.
  intros H. unfold requestedImage, map_index.
  destruct (Arguments (Params request) !! "image") as [v |] eqn:Hv; simpl; [| reflexivity].
  destruct v; simpl; try reflexivity.
  rewrite (H s eq_refl). reflexivity.
Qed.

(** C5: when the [image] argument is absent or the empty string, the image
    is python:3.12-slim-bookworm: it is the one inspected, and every container
    is created from the spec with that image, working directory /app, a TTY,
    stdin open and not closed after the first session; a success result
    comes from such a creation. *)
Theorem default_image_and_container_spec {W : Type} (h : Handler W) (w : W)
    (ctx : Context) (request : CallToolRequest) :
  Arguments (Params request) !! "image" = None \/
  Arguments (Params request) !! "image" = Some (AString "") ->
  let out := run h (InitializeEnvironment ctx request) w in
  let spec := {| Image := "python:3.12-slim-bookworm"; WorkingDir := "/app";
                 Tty := true; OpenStdin := true; StdinOnce := false |} in
  requestedImage request = "python:3.12-slim-bookworm" /\
  trace out = trace (run h (createContainer ctx "python:3.12-slim-bookworm") w) /\
  (forall cli ctx' config hostConfig name r,
     Ev (ContainerCreate cli ctx' config hostConfig name) r ∈ trace out -> config = spec) /\
  (forall id, (value out).1 = NewToolResultText ("container_id: " +:+ id) ->
     exists cli resp,
       Ev (ContainerCreate cli ctx spec mkHostConfig "") (Ok resp) ∈ trace out /\ ID resp = id).
Proof.
  intros Harg out spec.
  assert (requestedImage request = defaultImage) as Himg.
  { apply requestedImage_default. intros s Hs. destruct Harg as [Hn | Hn]; congruence. }
  pose proof (createContainer_config h w ctx defaultImage) as Hcfg.
  pose proof (createContainer_success h w ctx defaultImage) as Hs.
  unfold out. rewrite run_InitializeEnvironment, Himg. cbv zeta in Hcfg, Hs.
  change "python:3.12-slim-bookworm" with defaultImage.
  set (inner := run h (createContainer ctx defaultImage) w) in *. clearbody inner.
  destruct inner as [[[cid err] w1] t1]. unfold value, trace in *. cbn [fst snd] in *.
  split; [reflexivity |]. split; [reflexivity |]. split.
  - intros cli ctx' config hostConfig name r Hin.
    apply Hcfg in Hin as [-> _]. reflexivity.
  - intros id Hid. destruct err as [err |].
    + exfalso. unfold NewToolResultText in Hid. injection Hid as Hid. discriminate Hid.
    + destruct (Hs eq_refl) as (cli & resp & Hc & _ & Hv).
      exists cli, resp. split; [exact Hc |].
      unfold NewToolResultText in Hid. injection Hid as Hid.
      apply append_inj_l in Hid. rewrite Hv in Hid. exact Hid.
Qed.

Lemma default_image_and_container_spec_witness :
  let out := run (scripted healthy) (InitializeEnvironment (CallerCtx 0)
                   (request_with {[ "image" := AString "" ]})) tt in
  (value out).1 = NewToolResultText "container_id: c0ffee" /\
  exists cli resp,
    Ev (ContainerCreate cli (CallerCtx 0)
          {| Image := "python:3.12-slim-bookworm"; WorkingDir := "/app";
             Tty := true; OpenStdin := true; StdinOnce := false |}
          mkHostConfig "") (Ok resp) ∈ trace out /\ ID resp = "c0ffee".
Proof.
  split; [reflexivity |].
  refine (proj2 (proj2 (proj2 (default_image_and_container_spec (scripted healthy) tt
            (CallerCtx 0) (request_with {[ "image" := AString "" ]}) _))) "c0ffee" _).
  - right. reflexivity.
  - reflexivity.
Defined.

(** C10: an [image] argument that is not a string is handled exactly as a
    missing one: the default image is used and the same calls are made. *)
Theorem non_string_image_is_absent (ctx : Context) (request : CallToolRequest) (v : any) :
  Arguments (Params request) !! "image" = Some v ->
  (forall s, v <> AString s) ->
  requestedImage request = "python:3.12-slim-bookworm" /\
  requestedImage (without_image request) = "python:3.12-slim-bookworm" /\
  InitializeEnvironment ctx request = InitializeEnvironment ctx (without_image request).
Proof.
  intros Hv Hns.
  assert (requestedImage request = defaultImage) as H1.
  { apply requestedImage_default. intros s Hs. rewrite Hv in Hs. injection Hs as ->.
    destruct (Hns s eq_refl). }
  assert (requestedImage (without_image request) = defaultImage) as H2.
  { apply requestedImage_default. intros s Hs. simpl in Hs.
    rewrite lookup_delete_eq in Hs. discriminate Hs. }
  split; [exact H1 |]. split; [exact H2 |].
  unfold InitializeEnvironment. rewrite H1, H2. reflexivity.
Qed.

Lemma non_string_image_is_absent_witness :
  requestedImage (request_with {[ "image" := AFloat64 42 ]}) = "python:3.12-slim-bookworm" /\
  InitializeEnvironment Background (request_with {[ "image" := AFloat64 42 ]}) =
  InitializeEnvironment Background (without_image (request_with {[ "image" := AFloat64 42 ]})).
Proof.
  pose proof (non_string_image_is_absent Background
                (request_with {[ "image" := AFloat64 42 ]}) (AFloat64 42)) as H.
  destruct H as (H1 & _ & H3).
  - reflexivity.
  - intros s. discriminate.
  - split; [exact H1 | exact H3].
Defined.

(** ** Handles and streams *)

Lemma exec_tryFallbacks t r :
  exec tryFallbacks t r ->
  exists u t', t = Ev UserCurrent u :: t' /\
               exec (trySocketPaths (socketPaths u) (socketPaths u)) t' r.
Proof. intros (u & t' & -> & Ht). exists u, t'. split; [reflexivity | exact Ht]. Qed.

Lemma trySocketPaths_handles all todo tr r :
  exec (trySocketPaths all todo) tr r ->
  omap constructed tr = omap closed tr ++ returned r.
Proof.
  revert tr. induction todo as [| p rest IH]; intros tr H; simpl in H; exec_inv;
    cbn; rewrite ?(IH _ H); reflexivity.
Qed.

Lemma createDockerClient_handles tr r :
  exec createDockerClient tr r ->
  omap constructed tr = omap closed tr ++ returned r.
Proof.
  intros H. unfold createDockerClient in H. simpl in H. exec_inv.
  all: try reflexivity.
  all: apply exec_tryFallbacks in H as (u & t' & -> & H).
  all: cbn; rewrite (trySocketPaths_handles _ _ _ _ H); reflexivity.
Qed.

(** X1: the resolver leaks no handle: every client it constructed is closed
    again, in construction order, except the one it returns. *)
Theorem resolver_closes_rejected_clients {W : Type} (h : Handler W) (w : W) :
  let out := run h createDockerClient w in
  omap constructed (trace out) = omap closed (trace out) ++ returned (value out).
Proof.
  intros out. apply createDockerClient_handles. apply run_exec.
Qed.

(** How [createContainer] composes the resolver with the rest. *)
Lemma run_createContainer {W : Type} (h : Handler W) (w : W)
    (ctx : Context) (image : string) :
  run h (createContainer ctx image) w =
  let '(c, w1, t1) := run h createDockerClient w in
  match c with
  | Ok cli =>
      let '(res, w2, t2) := run h (ensureImageThenCreate cli ctx image) w1 in
      (res, w2, t1 ++ t2)
  | Err e => (("", Some (clientError e)), w1, t1)
  end.
Proof.
  unfold createContainer. rewrite run_bind.
  destruct (run h createDockerClient w) as [[c w1] t1]. destruct c as [cli | e].
  - reflexivity.
  - simpl. rewrite app_nil_r. reflexivity.
Qed.

Lemma resolver_omap_nil {B : Type} (f : Event -> option B) (t : list Event) :
  Forall (fun e => resolver_op (op_of e) = true) t ->
  (forall e, resolver_op (op_of e) = true -> f e = None) ->
  omap f t = [].
Proof.
  intros Hall Hf. induction Hall as [| e t He _ IH]; [reflexivity |].
  simpl. rewrite (Hf e He). exact IH.
Qed.

(** What the part of [createContainer] after the resolver does with the
    client, the pull stream and the pull context. *)
Lemma ensureImageThenCreate_release cli ctx image tr res :
  exec (ensureImageThenCreate cli ctx image) tr res ->
  omap constructed tr = [] /\ omap closed tr = [cli] /\
  omap opened_reader tr = omap closed_reader tr /\
  omap cancelled tr = (omap pull_call tr).*1.*2 /\
  exists r, last tr = Some (Ev (ClientClose cli) r).
Proof.
  intros H. unfold ensureImageThenCreate, createAndStart in H. simpl in H. exec_inv.
  all: cbn; repeat split; eexists; reflexivity.
Qed.

Ltac resolver_none := intros [[] ?] Ho; (discriminate Ho || reflexivity).

(** X2: every client constructed during a provisioning attempt is closed during
    that attempt, in construction order; when the resolver found a client,
    closing it is the last thing the attempt does. *)
Theorem provision_closes_every_client {W : Type} (h : Handler W) (w : W)
    (ctx : Context) (image : string) :
  let out := run h (createContainer ctx image) w in
  omap constructed (trace out) = omap closed (trace out) /\
  forall cli, value (run h createDockerClient w) = Ok cli ->
    exists r, last (trace out) = Some (Ev (ClientClose cli) r).
Proof.
  intros out. unfold out. rewrite run_createContainer.
  pose proof (run_exec h createDockerClient w) as H1.
  destruct (run h createDockerClient w) as [[c w1] t1].
  unfold value, trace in *. cbn [fst snd] in *.
  apply createDockerClient_handles in H1. destruct c as [cli | e].
  - pose proof (run_exec h (ensureImageThenCreate cli ctx image) w1) as H2.
    destruct (run h (ensureImageThenCreate cli ctx image) w1) as [[res w2] t2].
    unfold value, trace in *. cbn [fst snd] in *.
    apply ensureImageThenCreate_release in H2 as (Hc & Hcl & _ & _ & r & Hlast).
    split.
    + rewrite !omap_app. rewrite H1, Hc, Hcl. simpl. rewrite app_nil_r. reflexivity.
    + intros cli' [= <-]. exists r. rewrite last_app, Hlast. reflexivity.
  - cbn [fst snd]. split; [rewrite H1; apply app_nil_r | intros cli' [=]].
Qed.

(** X3: the pull stream and the pull context are released on every path: the
    streams closed are exactly the streams opened, and the contexts cancelled
    are exactly the contexts pulls were issued under. *)
Theorem pull_resources_released {W : Type} (h : Handler W) (w : W)
    (ctx : Context) (image : string) :
  let out := run h (createContainer ctx image) w in
  omap opened_reader (trace out) = omap closed_reader (trace out) /\
  omap cancelled (trace out) = (omap pull_call (trace out)).*1.*2.
Proof.
  intros out. pose proof (run_exec h (createContainer ctx image) w) as H. fold out in H.
  destruct out as [[res w'] tr]. unfold value, trace in *. cbn [fst snd] in *.
  apply createContainer_cases in H as [[Hops _] | (t1 & cli & t2 & -> & Hops & H)].
  - rewrite !(resolver_omap_nil _ _ Hops) by resolver_none. split; reflexivity.
  - apply ensureImageThenCreate_release in H as (_ & _ & Hrd & Hcx & _).
    rewrite !omap_app, !(resolver_omap_nil _ _ Hops) by resolver_none.
    simpl. split; assumption.
Qed.

(** X4: every engine call of a provisioning attempt goes through the client the
    resolver returned. *)
Theorem engine_calls_use_resolved_client {W : Type} (h : Handler W) (w : W)
    (ctx : Context) (image : string) :
  let out := run h (createContainer ctx image) w in
  forall e cli, e ∈ trace out -> engine_client e = Some cli ->
    value (run h createDockerClient w) = Ok cli.
Proof.
  intros out. unfold out. rewrite run_createContainer.
  pose proof (run_exec h createDockerClient w) as H1.
  destruct (run h createDockerClient w) as [[c w1] t1].
  unfold value, trace in *. cbn [fst snd] in *.
  apply createDockerClient_ops in H1. rewrite Forall_forall in H1.
  assert (forall e cli, e ∈ t1 -> engine_client e = Some cli -> False) as Hno.
  { intros [o r] cli He Hc. specialize (H1 _ He). destruct o; discriminate. }
  destruct c as [cli | err].
  - pose proof (run_exec h (ensureImageThenCreate cli ctx image) w1) as H2.
    destruct (run h (ensureImageThenCreate cli ctx image) w1) as [[res w2] t2].
    unfold value, trace in *. cbn [fst snd] in *.
    intros e cli' He Hc. apply elem_of_app in He as [He | He].
    + destruct (Hno _ _ He Hc).
    + unfold ensureImageThenCreate, createAndStart in H2. simpl in H2. exec_inv.
      all: ev_cases He; subst e; cbn in Hc; congruence.
  - cbn [fst snd]. intros e cli He Hc. destruct (Hno _ _ He Hc).
Qed.

Lemma engine_calls_use_resolved_client_witness :
  let out := run (scripted pulled) (createContainer (CallerCtx 0) "alpine:3") tt in
  Ev (ContainerStart 1%nat (CallerCtx 0) "c0ffee") None ∈ trace out /\
  value (run (scripted pulled) createDockerClient tt) = Ok 1%nat.
Proof.
  assert (Ev (ContainerStart 1%nat (CallerCtx 0) "c0ffee") None ∈
          trace (run (scripted pulled) (createContainer (CallerCtx 0) "alpine:3") tt)) as Hin.
  { vm_compute. repeat constructor. }
  split; [exact Hin |].
  exact (engine_calls_use_resolved_client (scripted pulled) tt (CallerCtx 0) "alpine:3"
           (Ev (ContainerStart 1%nat (CallerCtx 0) "c0ffee") None) 1%nat Hin eq_refl).
Defined.

(** ** Image acquisition *)

(** X5: when the inspection fails, exactly one pull is issued: through the same
    client, for the same image, under the caller's context with a five
    minute timeout. *)
Theorem failed_inspect_pulls_once {W : Type} (h : Handler W) (w : W)
    (ctx : Context) (image : string) (cli : Client) (e : error) :
  let out := run h (createContainer ctx image) w in
  Ev (ImageInspect cli ctx image) (Some e) ∈ trace out ->
  omap pull_call (trace out) = [(cli, WithTimeout ctx 300000000000, image)].
Proof.
  intros out. pose proof (run_exec h (createContainer ctx image) w) as H. fold out in H.
  destruct out as [[res w'] tr]. unfold value, trace in *. cbn [fst snd] in *.
  intros Hin. provision_cases H Hops.
  1: apply (resolver_trace_op _ _ _ Hops) in Hin; discriminate Hin.
  all: ev_solve Hops Hin.
  all: rewrite omap_app, (resolver_omap_nil _ _ Hops) by resolver_none; reflexivity.
Qed.

Lemma failed_inspect_pulls_once_witness :
  omap pull_call (trace (run (scripted pulled) (createContainer (CallerCtx 0) "alpine:3") tt))
  = [(1%nat, WithTimeout (CallerCtx 0) 300000000000, "alpine:3")].
Proof.
  apply (failed_inspect_pulls_once (scripted pulled) tt (CallerCtx 0) "alpine:3"
           1%nat "No such image").
  vm_compute. repeat constructor.
Defined.

(** X6: a failing pull call is followed at once by the query of the pull
    context; when the context has not hit its deadline (it is live or was
    cancelled), the error text alone decides: not-found when the text has one
    of the markers, the wrapped pull error otherwise. *)
Theorem pull_call_failure_classified_by_text {W : Type} (h : Handler W) (w : W)
    (ctx : Context) (image : string) (cli : Client) (e : error) :
  let out := run h (createContainer ctx image) w in
  Ev (ImagePull cli (pullCtx ctx) image) (Err e) ∈ trace out ->
  exists pre ce post,
    trace out = pre ++ [Ev (ImagePull cli (pullCtx ctx) image) (Err e);
                        Ev (CtxErr (pullCtx ctx)) ce] ++ post /\
    (ce <> Some DeadlineExceeded ->
     value out =
       ("", Some (if isNotFoundText e then notFoundError image else pullError image e))).
Proof.
  intros out. pose proof (run_exec h (createContainer ctx image) w) as H. fold out in H.
  destruct out as [[res w'] tr]. unfold value, trace in *. cbn [fst snd] in *.
  intros Hin.
  destruct (pull_failure_query _ _ _ _ _ _ H Hin) as (pre & ce & post & Htr & Hres).
  exists pre, ce, post. split; [exact Htr |]. intros Hnd. subst res.
  destruct ce as [[] |]; [reflexivity | destruct (Hnd eq_refl) | reflexivity].
Qed.

Lemma pull_call_failure_classified_by_text_witness :
  let out := run (scripted registry_404)
               (createContainer (CallerCtx 0) "nonexistent/image:latest") tt in
  value out = ("", Some (notFoundError "nonexistent/image:latest")) /\
  exists pre ce post,
    trace out =
      pre ++ [Ev (ImagePull 1%nat (pullCtx (CallerCtx 0)) "nonexistent/image:latest")
                 (Err "unexpected status code 404 from registry");
              Ev (CtxErr (pullCtx (CallerCtx 0))) ce] ++ post /\
    (ce <> Some DeadlineExceeded ->
     value out =
       ("", Some (if isNotFoundText "unexpected status code 404 from registry"
                  then notFoundError "nonexistent/image:latest"
                  else pullError "nonexistent/image:latest"
                         "unexpected status code 404 from registry"))).
Proof.
  split; [reflexivity |].
  apply (pull_call_failure_classified_by_text (scripted registry_404) tt (CallerCtx 0)
           "nonexistent/image:latest" 1%nat "unexpected status code 404 from registry").
  vm_compute. repeat constructor.
Defined.

(** X7: a failing drain is followed at once by the query of the pull
    context; when the context has not hit its deadline, the result is always
    the read error wrapping the cause, whatever the cause and the partial text
    say: they are not searched for not-found markers. *)
Theorem drain_failure_is_read_error {W : Type} (h : Handler W) (w : W)
    (ctx : Context) (image : string) (rd : Reader) (text : string) (e : error) :
  let out := run h (createContainer ctx image) w in
  Ev (ReadAll rd) (text, Some e) ∈ trace out ->
  exists pre ce post,
    trace out = pre ++ [Ev (ReadAll rd) (text, Some e);
                        Ev (CtxErr (pullCtx ctx)) ce] ++ post /\
    (ce <> Some DeadlineExceeded -> value out = ("", Some (readError image e))).
Proof.
  intros out. pose proof (run_exec h (createContainer ctx image) w) as H. fold out in H.
  destruct out as [[res w'] tr]. unfold value, trace in *. cbn [fst snd] in *.
  intros Hin.
  destruct (drain_failure_query _ _ _ _ _ _ _ H Hin) as (pre & ce & post & Htr & Hres).
  exists pre, ce, post. split; [exact Htr |]. intros Hnd. subst res.
  destruct ce as [[] |]; [reflexivity | destruct (Hnd eq_refl) | reflexivity].
Qed.

Lemma drain_failure_is_read_error_witness :
  let out := run (scripted drain_breaks) (createContainer (CallerCtx 0) "alpine:3") tt in
  isNotFoundText "layer not found" = true /\
  isNotFoundText "manifest unknown: unexpected EOF" = true /\
  value out = ("", Some (readError "alpine:3" "manifest unknown: unexpected EOF")) /\
  exists pre ce post,
    trace out =
      pre ++ [Ev (ReadAll 5%nat) ("layer not found", Some "manifest unknown: unexpected EOF");
              Ev (CtxErr (pullCtx (CallerCtx 0))) ce] ++ post /\
    (ce <> Some DeadlineExceeded ->
     value out = ("", Some (readError "alpine:3" "manifest unknown: unexpected EOF"))).
Proof.
  split; [reflexivity |]. split; [reflexivity |]. split; [reflexivity |].
  apply (drain_failure_is_read_error (scripted drain_breaks) tt (CallerCtx 0) "alpine:3"
           5%nat "layer not found" "manifest unknown: unexpected EOF").
  vm_compute. repeat constructor.
Defined.

(** X8: a drained text without a not-found marker but containing "error" or
    "Error" fails the attempt with the pull error quoting the whole text,
    and no container is created. *)
Theorem error_marker_fails_pull {W : Type} (h : Handler W) (w : W)
    (ctx : Context) (image : string) (rd : Reader) (text : string) :
  let out := run h (createContainer ctx image) w in
  Ev (ReadAll rd) (text, None) ∈ trace out ->
  isNotFoundText text = false ->
  strings_Contains text "error" = true \/ strings_Contains text "Error" = true ->
  value out = ("", Some (pullError image text)) /\
  omap create_call (trace out) = [].
Proof.
  intros out. pose proof (run_exec h (createContainer ctx image) w) as H. fold out in H.
  destruct out as [[res w'] tr]. unfold value, trace in *. cbn [fst snd] in *.
  intros Hread Hnf Herr.
  assert (isErrorText text = true) as He.
  { unfold isErrorText. destruct Herr as [-> | ->]; rewrite ?orb_true_r; reflexivity. }
  provision_cases H Hops.
  1: apply (resolver_trace_op _ _ _ Hops) in Hread; discriminate Hread.
  all: ev_solve Hops Hread.
  all: simpl in *; try congruence.
  all: split; [reflexivity |].
  all: rewrite omap_app, (resolver_omap_nil _ _ Hops) by resolver_none; reflexivity.
Qed.

Lemma error_marker_fails_pull_witness :
  let out := run (scripted error_marker) (createContainer (CallerCtx 0) "alpine:3") tt in
  value out = ("", Some (pullError "alpine:3" "errorDetail: unauthorized")) /\
  omap create_call (trace out) = [].
Proof.
  apply (error_marker_fails_pull (scripted error_marker) tt (CallerCtx 0) "alpine:3"
           5%nat "errorDetail: unauthorized").
  - vm_compute. repeat constructor.
  - reflexivity.
  - left. reflexivity.
Defined.

(** X9: a container is created only once the image is known to be present:
    the inspection succeeded, or a pull succeeded and its fully drained text
    carries neither a not-found marker nor an error marker. *)
Theorem create_only_after_image_present {W : Type} (h : Handler W) (w : W)
    (ctx : Context) (image : string) (c : Client * Context * Config) :
  let out := run h (createContainer ctx image) w in
  c ∈ omap create_call (trace out) ->
  c = (c.1.1, ctx, containerConfig image) /\
  (Ev (ImageInspect c.1.1 ctx image) None ∈ trace out \/
   exists rd text,
     Ev (ImagePull c.1.1 (pullCtx ctx) image) (Ok rd) ∈ trace out /\
     Ev (ReadAll rd) (text, None) ∈ trace out /\
     isNotFoundText text = false /\ isErrorText text = false).
Proof.
  intros out. pose proof (run_exec h (createContainer ctx image) w) as H. fold out in H.
  destruct out as [[res w'] tr]. unfold value, trace in *. cbn [fst snd] in *.
  intros Hin. provision_cases H Hops.
  1: rewrite (resolver_omap_nil _ _ Hops) in Hin by resolver_none;
     apply elem_of_nil in Hin; contradiction.
  all: rewrite omap_app, (resolver_omap_nil _ _ Hops) in Hin by resolver_none.
  all: cbn in Hin; ev_cases Hin; subst c; cbn [fst snd].
  all: split; [reflexivity |].
  all: first
    [ left; apply elem_of_app; right; solve [repeat constructor]
    | right;
      match goal with
      | Hd : ?r.2 = None |- _ =>
          destruct r as [text rerr]; cbn [fst snd] in *; subst rerr;
          eexists _, text; repeat split; try eassumption;
          apply elem_of_app; right; solve [repeat constructor]
      end ].
Qed.

Lemma create_only_after_image_present_witness :
  let out := run (scripted pulled) (createContainer (CallerCtx 0) "alpine:3") tt in
  (1%nat, CallerCtx 0, containerConfig "alpine:3") ∈ omap create_call (trace out) /\
  (Ev (ImageInspect 1%nat (CallerCtx 0) "alpine:3") None ∈ trace out \/
   exists rd text,
     Ev (ImagePull 1%nat (pullCtx (CallerCtx 0)) "alpine:3") (Ok rd) ∈ trace out /\
     Ev (ReadAll rd) (text, None) ∈ trace out /\
     isNotFoundText text = false /\ isErrorText text = false).
Proof.
  assert ((1%nat, CallerCtx 0, containerConfig "alpine:3") ∈
          omap create_call
            (trace (run (scripted pulled) (createContainer (CallerCtx 0) "alpine:3") tt)))
    as Hin.
  { vm_compute. repeat constructor. }
  split; [exact Hin |].
  exact (proj2 (create_only_after_image_present (scripted pulled) tt (CallerCtx 0) "alpine:3"
                  (1%nat, CallerCtx 0, containerConfig "alpine:3") Hin)).
Defined.

(** ** One attempt, no retries *)

(** X10: an attempt inspects at most once, pulls at most once, creates at most
    one container and starts at most once. *)
Theorem provisioning_never_retries {W : Type} (h : Handler W) (w : W)
    (ctx : Context) (image : string) :
  let out := run h (createContainer ctx image) w in
  (length (omap inspect_call (trace out)) <= 1)%nat /\
  (length (omap pull_call (trace out)) <= 1)%nat /\
  (length (omap create_call (trace out)) <= 1)%nat /\
  (length (omap start_call (trace out)) <= 1)%nat.
Proof.
  intros out. pose proof (run_exec h (createContainer ctx image) w) as H. fold out in H.
  destruct out as [[res w'] tr]. unfold value, trace in *. cbn [fst snd] in *.
  provision_cases H Hops.
  all: rewrite ?omap_app, !(resolver_omap_nil _ _ Hops) by resolver_none.
  all: cbn; repeat split; lia.
Qed.

(** X11: when the resolver fails, nothing else is attempted: the calls made are
    the resolver's own, and the caller is told, as a text result with a nil
    error, that the Docker client could not be created and why. *)
Theorem resolver_failure_stops_provisioning {W : Type} (h : Handler W) (w : W)
    (ctx : Context) (request : CallToolRequest) (e : error) :
  value (run h createDockerClient w) = Err e ->
  let out := run h (InitializeEnvironment ctx request) w in
  value out = (NewToolResultText ("Error: failed to create Docker client: " +:+ e), None) /\
  trace out = trace (run h createDockerClient w).
Proof.
  intros He out. unfold out. rewrite run_InitializeEnvironment.
  cbv zeta. rewrite run_createContainer.
  destruct (run h createDockerClient w) as [[c w1] t1].
  unfold value, trace in *. cbn [fst snd] in *. subst c. cbn. split; reflexivity.
Qed.

Lemma resolver_failure_stops_provisioning_witness :
  let out := run (scripted no_engine) (InitializeEnvironment (CallerCtx 0) (request_with ∅)) tt in
  value out =
    (NewToolResultText
       ("Error: failed to create Docker client: could not connect to Docker daemon. "
        +:+ "Tried standard connection and socket paths: [/var/run/docker.sock]"), None) /\
  trace out = trace (run (scripted no_engine) createDockerClient tt).
Proof.
  exact (resolver_failure_stops_provisioning (scripted no_engine) tt (CallerCtx 0)
           (request_with ∅) (connError ["/var/run/docker.sock"]) eq_refl).
Defined.

(** X12: when the engine refuses to create the container, the attempt fails
    with the wrapped creation error and no start is issued. *)
Theorem create_failure_never_starts {W : Type} (h : Handler W) (w : W)
    (ctx : Context) (image : string) (cli : Client) (e : error) :
  let out := run h (createContainer ctx image) w in
  Ev (ContainerCreate cli ctx (containerConfig image) mkHostConfig "") (Err e) ∈ trace out ->
  value out = ("", Some ("failed to create container: " +:+ e)) /\
  omap start_call (trace out) = [].
Proof.
  intros out. pose proof (run_exec h (createContainer ctx image) w) as H. fold out in H.
  destruct out as [[res w'] tr]. unfold value, trace in *. cbn [fst snd] in *.
  intros Hin. provision_cases H Hops.
  1: apply (resolver_trace_op _ _ _ Hops) in Hin; discriminate Hin.
  all: ev_solve Hops Hin.
  all: split; [reflexivity |].
  all: rewrite omap_app, (resolver_omap_nil _ _ Hops) by resolver_none; reflexivity.
Qed.

Lemma create_failure_never_starts_witness :
  let out := run (scripted create_fails) (createContainer (CallerCtx 0) "Bad Ref") tt in
  value out = ("", Some "failed to create container: invalid reference format") /\
  omap start_call (trace out) = [].
Proof.
  apply (create_failure_never_starts (scripted create_fails) tt (CallerCtx 0) "Bad Ref"
           1%nat "invalid reference format").
  vm_compute. repeat constructor.
Defined.

(** X13: an attempt succeeds exactly through a successful start: its identifier
    is the one the engine returned from the creation, and a start that
    succeeds makes the attempt return that identifier with a nil error. *)
Theorem success_is_a_started_container {W : Type} (h : Handler W) (w : W)
    (ctx : Context) (image : string) :
  let out := run h (createContainer ctx image) w in
  ((value out).2 = None ->
     exists cli resp,
       Ev (ContainerCreate cli ctx (containerConfig image) mkHostConfig "") (Ok resp)
         ∈ trace out /\
       Ev (ContainerStart cli ctx (ID resp)) None ∈ trace out /\
       (value out).1 = ID resp) /\
  (forall cli ctx' id, Ev (ContainerStart cli ctx' id) None ∈ trace out ->
     value out = (id, None)).
Proof.
  intros out. split; [exact (createContainer_success h w ctx image) |].
  pose proof (run_exec h (createContainer ctx image) w) as H. fold out in H.
  destruct out as [[res w'] tr]. unfold value, trace in *. cbn [fst snd] in *.
  intros cli0 ctx' id Hin. provision_cases H Hops.
  1: apply (resolver_trace_op _ _ _ Hops) in Hin; discriminate Hin.
  all: ev_solve Hops Hin.
  all: reflexivity.
Qed.

(** ** The request and the response *)

Lemma createContainer_images {W : Type} (h : Handler W) (w : W)
    (ctx : Context) (image : string) :
  forall e i, e ∈ trace (run h (createContainer ctx image) w) -> image_of e = Some i ->
    i = image.
Proof.
  pose proof (run_exec h (createContainer ctx image) w) as H.
  destruct (run h (createContainer ctx image) w) as [[res w'] tr].
  unfold value, trace in *. cbn [fst snd] in *. intros e i He Hi.
  assert (forall t, Forall (fun e => resolver_op (op_of e) = true) t -> e ∈ t -> False) as Hno.
  { intros t Ht Hin. rewrite Forall_forall in Ht. specialize (Ht _ Hin).
    destruct e as [[] ?]; discriminate. }
  provision_cases H Hops.
  1: destruct (Hno _ Hops He).
  all: apply elem_of_app in He as [He | He]; [destruct (Hno _ Hops He) |].
  all: ev_cases He; subst e; cbn in Hi; congruence.
Qed.

(** X14: a non-empty string [image] argument is used as it is, without any
    validation: every engine call that names an image names that one. *)
Theorem explicit_image_used_verbatim {W : Type} (h : Handler W) (w : W)
    (ctx : Context) (request : CallToolRequest) (s : string) :
  Arguments (Params request) !! "image" = Some (AString s) ->
  s <> "" ->
  requestedImage request = s /\
  forall e i, e ∈ trace (run h (InitializeEnvironment ctx request) w) ->
    image_of e = Some i -> i = s.
Proof.
  intros Harg Hs.
  assert (requestedImage request = s) as Himg.
  { unfold requestedImage, map_index. rewrite Harg. simpl.
    destruct (String.eqb_spec s ""); [contradiction | reflexivity]. }
  split; [exact Himg |].
  rewrite run_InitializeEnvironment. cbv zeta. unfold trace at 1. cbn [snd].
  rewrite Himg. apply createContainer_images.
Qed.

Lemma explicit_image_used_verbatim_witness :
  requestedImage (request_with {[ "image" := AString "not a valid ref!" ]})
  = "not a valid ref!" /\
  forall e i,
    e ∈ trace (run (scripted healthy) (InitializeEnvironment (CallerCtx 0)
                 (request_with {[ "image" := AString "not a valid ref!" ]})) tt) ->
    image_of e = Some i -> i = "not a valid ref!".
Proof.
  apply (explicit_image_used_verbatim (scripted healthy) tt (CallerCtx 0)
           (request_with {[ "image" := AString "not a valid ref!" ]}) "not a valid ref!").
  - reflexivity.
  - discriminate.
Defined.

(** X15: the text of the response tells success from failure by its prefix:
    it starts with "Error: " exactly when the attempt failed and with
    "container_id: " exactly when it succeeded. *)
Theorem response_prefix_discriminates {W : Type} (h : Handler W) (w : W)
    (ctx : Context) (request : CallToolRequest) :
  let inner := run h (createContainer ctx (requestedImage request)) w in
  let out := run h (InitializeEnvironment ctx request) w in
  exists text,
    (value out).1 = NewToolResultText text /\
    (String.prefix "Error: " text = true <-> (value inner).2 <> None) /\
    (String.prefix "container_id: " text = true <-> (value inner).2 = None).
Proof.
  intros inner out. unfold out. rewrite run_InitializeEnvironment. fold inner.
  unfold value at 1. cbn [fst].
  destruct ((value inner).2) as [err |]; eexists; (split; [reflexivity |]).
  - split; split.
    + discriminate.
    + intros _. destruct err; reflexivity.
    + intros Hp. vm_compute in Hp. discriminate Hp.
    + intros Hn. discriminate Hn.
  - split; split.
    + intros Hp. vm_compute in Hp. discriminate Hp.
    + intros Hn. destruct (Hn eq_refl).
    + reflexivity.
    + intros _. destruct ((value inner).1); reflexivity.
Qed.

(** ** Text tests and messages *)

Lemma append_assoc (a b c : string) : (a +:+ b) +:+ c = a +:+ (b +:+ c).
Proof.
  induction a as [| x a IH]; [reflexivity |].
  change (String x ((a +:+ b) +:+ c) = String x (a +:+ (b +:+ c))). rewrite IH. reflexivity.
Qed.

Lemma prefix_app (a s : string) : String.prefix a s = true <-> exists b, s = a +:+ b.
Proof.
  split.
  - revert s. induction a as [| x a IH]; intros s H.
    + exists s. reflexivity.
    + destruct s as [| y s]; [discriminate H |].
      cbn [String.prefix] in H. destruct (ascii_dec x y) as [<- |]; [| discriminate H].
      destruct (IH _ H) as [b ->]. exists b. reflexivity.
  - intros [b ->]. induction a as [| x a IH].
    + destruct b; reflexivity.
    + change (String.prefix (String x a) (String x (a +:+ b)) = true).
      cbn [String.prefix]. destruct (ascii_dec x x); [exact IH | contradiction].
Qed.

Lemma Contains_spec (s sub : string) :
  strings_Contains s sub = true <-> exists a b, s = a +:+ sub +:+ b.
Proof.
  split.
  - induction s as [| c s IH]; cbn [strings_Contains]; intros H.
    + rewrite orb_false_r in H. apply prefix_app in H as [b Hb]. exists "", b. exact Hb.
    + apply orb_true_iff in H as [H | H].
      * apply prefix_app in H as [b Hb]. exists "", b. exact Hb.
      * destruct (IH H) as (a & b & ->). exists (String c a), b. reflexivity.
  - intros (a & b & ->). apply Contains_app_r, Contains_prefix, prefix_app.
    exists b. reflexivity.
Qed.

(** X16: the not-found test is a plain substring search: it holds exactly for
    the texts that have "not found", "404" or "manifest unknown" somewhere
    inside, whatever surrounds it. *)
Theorem not_found_test_is_substring_search (s : string) :
  isNotFoundText s = true <->
  exists m a b, m ∈ notFoundMarkers /\ s = a +:+ m +:+ b.
Proof.
  unfold isNotFoundText, notFoundMarkers. rewrite !orb_true_iff, !Contains_spec. split.
  - intros [[(a & b & H) | (a & b & H)] | (a & b & H)]; eexists _, a, b;
      (split; [| exact H]); set_solver.
  - intros (m & a & b & Hm & ->).
    apply elem_of_cons in Hm as [-> | Hm]; [left; left; eauto |].
    apply elem_of_cons in Hm as [-> | Hm]; [left; right; eauto |].
    apply elem_of_cons in Hm as [-> | Hm]; [right; eauto |].
    apply elem_of_nil in Hm. contradiction.
Qed.

Lemma Join_names (paths : list string) (sep p : string) :
  p ∈ paths -> exists a b, strings_Join paths sep = a +:+ p +:+ b.
Proof.
  induction paths as [| q rest IH]; intros Hin; [apply elem_of_nil in Hin; contradiction |].
  apply elem_of_cons in Hin as [-> | Hin].
  - destruct rest as [| q' rest'].
    + exists "", "". cbn [strings_Join]. destruct q as [| c q]; [reflexivity |].
      symmetry. change ("" +:+ String c q +:+ "") with (String c q +:+ "").
      clear. induction (String c q) as [| x s IHs]; [reflexivity |].
      change (String x (s +:+ "") = String x s). rewrite IHs. reflexivity.
    + exists "", (sep +:+ strings_Join (q' :: rest') sep). reflexivity.
  - destruct (IH Hin) as (a & b & Ha). destruct rest as [| q' rest'].
    + apply elem_of_nil in Hin. contradiction.
    + exists (q +:+ sep +:+ a), b.
      change (strings_Join (q :: q' :: rest') sep)
        with (q +:+ sep +:+ strings_Join (q' :: rest') sep).
      rewrite Ha, !append_assoc. reflexivity.
Qed.

(** X17: the text of the connection error contains every socket path of the
    slice it was built from. *)
Theorem connection_error_names_every_path (paths : list string) (p : string) :
  p ∈ paths -> strings_Contains (connError paths) p = true.
Proof.
  intros Hin. apply Contains_spec. destruct (Join_names paths " " p Hin) as (a & b & Ha).
  exists ("could not connect to Docker daemon. Tried standard connection and socket paths: ["
          +:+ a), (b +:+ "]").
  unfold connError, fmt_slice. rewrite Ha, !append_assoc. reflexivity.
Qed.

Lemma connection_error_names_every_path_witness :
  strings_Contains
    (connError (socketPaths (Ok (mkUser "dev" "/home/dev"))))
    "/home/dev/.colima/default/docker.sock" = true.
Proof.
  apply (connection_error_names_every_path
           (socketPaths (Ok (mkUser "dev" "/home/dev")))
           "/home/dev/.colima/default/docker.sock").
  vm_compute. repeat constructor.
Defined.

(** ** Order of the existence checks, and contexts *)

(** X18: the existence checks follow the socket-path slice from its start,
    without skipping a path, and stop where the resolver returns. *)
Theorem resolver_checks_paths_in_order {W : Type} (h : Handler W) (w : W) :
  let out := run h createDockerClient w in
  omap stat_path (trace out) `prefix_of` socketPaths (user_answer (trace out)).
Proof.
  intros out. pose proof (run_exec h createDockerClient w) as H. fold out in H.
  destruct out as [[r w'] tr]. unfold value, trace in *. cbn [fst snd] in *.
  apply createDockerClient_cases in H
    as [(cli & -> & ->) | (pre & u & tr' & -> & _ & Hst & _ & _ & _ & Huser & H)].
  - apply prefix_nil.
  - rewrite (trySocketPaths_user _ _ _ _ _ _ H Huser).
    rewrite (omap_app_nil stat_path pre (Ev UserCurrent u) tr' Hst eq_refl).
    exact (trySocketPaths_stats_prefix _ _ _ _ H).
Qed.

(** X19: the liveness probes run under the background context, never under the
    caller's; inspect, create and start run under the caller's context; the
    pull, the deadline query and the cancellation use the caller's context
    with the five minute timeout. *)
Theorem contexts_of_calls {W : Type} (h : Handler W) (w : W)
    (ctx : Context) (image : string) :
  let out := run h (createContainer ctx image) w in
  forall e c, e ∈ trace out -> context_of e = Some c ->
    match op_of e with
    | Ping _ _ => c = Background
    | ImagePull _ _ _ | CtxErr _ | CtxCancel _ => c = WithTimeout ctx 300000000000
    | _ => c = ctx
    end.
Proof.
  intros out. unfold out. rewrite run_createContainer.
  pose proof (run_exec h createDockerClient w) as H1.
  destruct (run h createDockerClient w) as [[r w1] t1].
  unfold value, trace in *. cbn [fst snd] in *.
  assert (forall e c, e ∈ t1 -> context_of e = Some c ->
            match op_of e with
            | Ping _ _ => c = Background
            | ImagePull _ _ _ | CtxErr _ | CtxCancel _ => c = WithTimeout ctx 300000000000
            | _ => c = ctx
            end) as Hres.
  { clear -H1. intros e c He Hc.
    assert (forall all todo t r0, exec (trySocketPaths all todo) t r0 -> e ∈ t ->
              op_of e = Ping (match op_of e with Ping cli _ => cli | _ => 0%nat end) Background
              \/ context_of e = None) as Hloop.
    { intros all todo. induction todo as [| p rest IH]; intros t r0 Ht Hin;
        simpl in Ht; exec_inv; ev_cases Hin; subst; auto; eauto. }
    assert (op_of e = Ping (match op_of e with Ping cli _ => cli | _ => 0%nat end) Background
            \/ context_of e = None) as [Hp | Hn].
    { unfold createDockerClient in H1. simpl in H1. exec_inv.
      all: ev_cases He; subst; auto.
      all: apply exec_tryFallbacks in H1 as (u & t' & -> & H1).
      all: ev_cases He; subst; auto; eauto. }
    - rewrite Hp in *. unfold context_of in Hc. rewrite Hp in Hc. congruence.
    - congruence. }
  destruct r as [cli | err]; [| exact Hres].
  pose proof (run_exec h (ensureImageThenCreate cli ctx image) w1) as H2.
  destruct (run h (ensureImageThenCreate cli ctx image) w1) as [[res w2] t2].
  unfold value, trace in *. cbn [fst snd] in *.
  intros e c He Hc. apply elem_of_app in He as [He | He]; [exact (Hres _ _ He Hc) |].
  unfold ensureImageThenCreate, createAndStart in H2. simpl in H2. exec_inv.
  all: ev_cases He; subst e; cbn in Hc;
    first [ discriminate Hc | injection Hc as <-; reflexivity ].
Qed.

Lemma contexts_of_calls_witness :
  let out := run (scripted pulled) (createContainer (CallerCtx 7) "alpine:3") tt in
  let e := Ev (ImagePull 1%nat (WithTimeout (CallerCtx 7) (5 * Minute)) "alpine:3") (Ok 5%nat) in
  e ∈ trace out /\
  forall c, context_of e = Some c -> c = WithTimeout (CallerCtx 7) 300000000000.
Proof.
  assert (Ev (ImagePull 1%nat (WithTimeout (CallerCtx 7) (5 * Minute)) "alpine:3") (Ok 5%nat)
          ∈ trace (run (scripted pulled) (createContainer (CallerCtx 7) "alpine:3") tt)) as Hin.
  { vm_compute. repeat constructor. }
  split; [exact Hin |].
  intros c Hc.
  exact (contexts_of_calls (scripted pulled) tt (CallerCtx 7) "alpine:3" _ c Hin Hc).
Defined.
